(** * Placeholder icon generators: [create_icons.py] and [create_product_icons.py]

    A shallow embedding of the two scripts of the repository.  Both scripts
    are straight-line programs over three collaborators: Python's built-in
    string methods, the [os] module and the Pillow imaging library.  The
    collaborators are modelled by small executable definitions (gathered in
    the modules [Py], [PIL], [Sys] and [OS] below); the scripts themselves are
    transcribed statement by statement in the modules [CreateIcons]
    (the variant that draws a label) and [CreateProductIcons] (the variant
    without text).

    Names are modelled as ASCII strings: every character of the scripts'
    literals is ASCII, and on ASCII [str.title] and [len] act per byte. *)

From Stdlib Require Import ZArith Lia Bool Ascii.
From stdpp Require Import gmap strings.

Local Open Scope Z_scope.

(* ===================================================================== *)
(** ** Python built-ins used by the scripts                               *)
(* ===================================================================== *)

Module Py.

(** [s.startswith(pre)] *)
Fixpoint startswith (pre s : string) : bool :=
  match pre, s with
  | EmptyString, _ => true
  | String a pre', String b s' => Ascii.eqb a b && startswith pre' s'
  | String _ _, EmptyString => false
  end.

(** [sub in s] *)
Fixpoint contains (sub s : string) : bool :=
  startswith sub s ||
  match s with
  | EmptyString => false
  | String _ s' => contains sub s'
  end.

(** [s.replace(old, new)]: every non-overlapping occurrence of [old], found
    scanning from the left, is replaced.  [skip] counts the characters of a
    matched occurrence that are still to be dropped. *)
Fixpoint replace_from (old new : string) (skip : nat) (s : string) : string :=
  match s with
  | EmptyString =>
      match skip, old with
      | O, EmptyString => new
      | _, _ => EmptyString
      end
  | String c s' =>
      match skip with
      | S k => replace_from old new k s'
      | O =>
          if startswith old s
          then new +:+ (match old with
                        | EmptyString => String c (replace_from old new 0 s')
                        | String _ old' =>
                            replace_from old new (String.length old') s'
                        end)
          else String c (replace_from old new 0 s')
      end
  end.

Definition replace (s old new : string) : string := replace_from old new 0 s.

Definition is_lower (c : ascii) : bool :=
  let n := Z.of_nat (nat_of_ascii c) in (97 <=? n) && (n <=? 122).

Definition is_upper (c : ascii) : bool :=
  let n := Z.of_nat (nat_of_ascii c) in (65 <=? n) && (n <=? 90).

Definition is_cased (c : ascii) : bool := is_lower c || is_upper c.

Definition to_upper (c : ascii) : ascii :=
  if is_lower c then ascii_of_nat (nat_of_ascii c - 32) else c.

Definition to_lower (c : ascii) : ascii :=
  if is_upper c then ascii_of_nat (nat_of_ascii c + 32) else c.

(** [s.title()] on ASCII strings: a cased character that follows an
    uncased one (or starts the string) is upper-cased, every other cased
    character is lower-cased.  Only the letters a-z and A-Z are cased here;
    outside ASCII Python's [title] does more (it can even change the
    length), so statements that rest on it are about ASCII names. *)
Fixpoint title_from (previous_is_cased : bool) (s : string) : string :=
  match s with
  | EmptyString => EmptyString
  | String c s' =>
      String (if previous_is_cased then to_lower c else to_upper c)
             (title_from (is_cased c) s')
  end.

Definition title (s : string) : string := title_from false s.

(** [len(s)] *)
Definition len (s : string) : Z := Z.of_nat (String.length s).

(** [s.isascii()]: every character is below 128. *)
Fixpoint isascii (s : string) : bool :=
  match s with
  | EmptyString => true
  | String c s' => (Z.of_nat (nat_of_ascii c) <? 128) && isascii s'
  end.

(** [s.removesuffix(suf)]: drops [suf] when [s] ends with it.  The script
    does not call it; it is the reading of "stripping a trailing suffix". *)
Fixpoint removesuffix (s suf : string) : string :=
  match s with
  | EmptyString => EmptyString
  | String c s' =>
      if String.eqb s suf then EmptyString else String c (removesuffix s' suf)
  end.

(** [os.path.join(a, b)] of [posixpath]. *)
Definition path_join (a b : string) : string :=
  if startswith "/" b then b
  else match a with
       | EmptyString => b
       | _ => if String.eqb (String.substring (String.length a - 1) 1 a) "/"
              then a +:+ b
              else a +:+ "/" +:+ b
       end.

End Py.

(* ===================================================================== *)
(** ** The Pillow operations used by the scripts                          *)
(* ===================================================================== *)

Module PIL.

Inductive mode := RGB | RGBA.

(** A colour as the scripts write it: a 3-tuple or a 4-tuple of integers. *)
Inductive color :=
  | Color3 (r g b : Z)
  | Color4 (r g b a : Z).

(** A stored pixel always has four bands; in mode [RGB] the fourth is
    padding and is not reported by [getpixel]. *)
Record pixel := Pixel { red : Z; green : Z; blue : Z; alpha : Z }.

Definition clip8 (v : Z) : Z := Z.max 0 (Z.min 255 v).

(** Conversion of a colour tuple to the ink written into the raster: bands
    are clipped to a byte and a missing alpha is 255. *)
Definition getink (c : color) : pixel :=
  match c with
  | Color3 r g b => Pixel (clip8 r) (clip8 g) (clip8 b) 255
  | Color4 r g b a => Pixel (clip8 r) (clip8 g) (clip8 b) (clip8 a)
  end.

Record Image := mkImage {
  im_mode : mode;
  im_size : Z * Z;
  im_data : Z -> Z -> pixel
}.

(** [Image.new(mode, size, color)] *)
Definition new (m : mode) (size : Z * Z) (c : color) : Image :=
  mkImage m size (fun _ _ => getink c).

(** [img.getpixel((x, y))]; [None] stands for the [IndexError] raised
    outside the raster. *)
Definition getpixel (im : Image) (xy : Z * Z) : option color :=
  let '(x, y) := xy in
  let '(w, h) := im_size im in
  if (0 <=? x) && (x <? w) && (0 <=? y) && (y <? h) then
    let p := im_data im x y in
    Some (match im_mode im with
          | RGB => Color3 (red p) (green p) (blue p)
          | RGBA => Color4 (red p) (green p) (blue p) (alpha p)
          end)
  else None.

(** Pixels of the box with corners [(x0, y0)] and [(x1, y1)], both
    corners included. *)
Definition in_box (xy : Z * Z * Z * Z) (x y : Z) : bool :=
  let '(x0, y0, x1, y1) := xy in
  (x0 <=? x) && (x <=? x1) && (y0 <=? y) && (y <=? y1).

(** Pixels of the outline of that box: the [width] outermost rows and
    columns inside it. *)
Definition on_outline (xy : Z * Z * Z * Z) (width : Z) (x y : Z) : bool :=
  let '(x0, y0, x1, y1) := xy in
  in_box xy x y &&
  ((x <? x0 + width) || (x1 - width <? x) ||
   (y <? y0 + width) || (y1 - width <? y)).

Definition paint (region : Z -> Z -> bool) (ink : pixel) (im : Image) : Image :=
  mkImage (im_mode im) (im_size im)
          (fun x y => if region x y then ink else im_data im x y).

Definition pixel_eqb (p q : pixel) : bool :=
  (red p =? red q) && (green p =? green q) &&
  (blue p =? blue q) && (alpha p =? alpha q).

(** The ink of a fresh [ImageDraw.Draw]: white. *)
Definition default_ink : pixel := Pixel 255 255 255 255.

(** [ImageDraw._getink(outline, fill)]: the inks of the two colours; with
    neither given, the outline takes the default ink. *)
Definition getinks (outline fill : option color) : option pixel * option pixel :=
  match outline, fill with
  | None, None => (Some default_ink, None)
  | _, _ => (option_map getink outline, option_map getink fill)
  end.

(** [ImageDraw.Draw(img).rectangle(xy, fill, outline, width)], where [xy]
    is [[x0, y0, x1, y1]] or [[(x0, y0), (x1, y1)]]: the box is filled
    first, then the outline is drawn over it unless its ink equals the
    fill or the width is zero.  Pixels are replaced, not blended. *)
Definition rectangle (im : Image) (xy : Z * Z * Z * Z)
    (fill outline : option color) (width : Z) : Image :=
  let '(ink, fill_ink) := getinks outline fill in
  let im1 := match fill_ink with
             | Some f => paint (in_box xy) f im
             | None => im
             end in
  match ink with
  | Some i =>
      let same := match fill_ink with
                  | Some f => pixel_eqb i f
                  | None => false
                  end in
      if negb same && negb (width =? 0)
      then paint (on_outline xy width) i im1
      else im1
  | None => im1
  end.

(** Rounded division by 255 used by the library's compositing. *)
Definition div255 (a : Z) : Z :=
  let tmp := a + 128 in Z.shiftr (Z.shiftr tmp 8 + tmp) 8.

Definition blend (mask in1 in2 : Z) : Z :=
  div255 (in1 * (255 - mask) + in2 * mask).

Definition blend_pixel (mask : Z) (p ink : pixel) : pixel :=
  Pixel (blend mask (red p) (red ink)) (blend mask (green p) (green ink))
        (blend mask (blue p) (blue ink)) (blend mask (alpha p) (alpha ink)).

(** A font, seen through the only thing [draw.text] asks of it: the
    coverage (0 to 255) of the rendered string at an offset from the
    anchor, 0 wherever the string's bitmap does not reach. *)
Definition font := string -> Z -> Z -> Z.

(** [ImageDraw.Draw(img).text(xy, text, fill)] with font [f]: the ink is
    composited through the coverage mask of the rendered string. *)
Definition text (f : font) (im : Image) (xy : Z * Z) (s : string)
    (fill : color) : Image :=
  let '(x0, y0) := xy in
  mkImage (im_mode im) (im_size im)
          (fun x y => blend_pixel (clip8 (f s (x - x0) (y - y0)))
                                  (im_data im x y) (getink fill)).

End PIL.

(* ===================================================================== *)
(** ** Files, failures and the trace of library calls                     *)
(* ===================================================================== *)

Module Sys.

Inductive io_error :=
  | FileExistsError (p : string)
  | FileNotFoundError (p : string)
  | NotADirectoryError (p : string)
  | IsADirectoryError (p : string)
  | OSError (errno : Z) (p : string)
  | RecursionError.

Definition is_FileExistsError (e : io_error) : bool :=
  match e with FileExistsError _ => true | _ => false end.

(** Every error but [RecursionError] is an [OSError] of Python. *)
Definition is_OSError (e : io_error) : bool :=
  match e with RecursionError => false | _ => true end.

(** What a file holds: the PNG encoding of an image, or any other bytes
    (for instance what an interrupted write left behind). *)
Inductive content :=
  | Png (im : PIL.Image)
  | Raw (data : string).

Inductive node :=
  | Dir
  | File (c : content).

(** What a failed write leaves at its target path. *)
Inductive leftover :=
  | Untouched
  | Removed
  | Partial (data : string).

Record fault := mkFault { fault_error : io_error; fault_leftover : leftover }.

(** The environment of a run: the file tree (keyed by path, relative to
    the working directory), the failures the environment is going to
    inject (one slot per system call, [None] for a call that is let
    through) and the default font of the installed imaging library. *)
Record world := mkWorld {
  fs : gmap string node;
  faults : list (option fault);
  default_font : PIL.font
}.

(** The library calls a script makes, in program order. *)
Inductive event :=
  | EvMakedirs (name : string) (exist_ok : bool)
  | EvNew (m : PIL.mode) (size : Z * Z) (c : PIL.color)
  | EvRectangle (xy : Z * Z * Z * Z) (fill outline : option PIL.color) (width : Z)
  | EvText (xy : Z * Z) (s : string) (fill : PIL.color)
  | EvSave (im : PIL.Image) (path : string)
  | EvPrint (line : string).

(** A computation either raises or returns, and in both cases leaves a
    world behind and the calls it has made. *)
Definition M (A : Type) : Type := world -> (io_error + A) * world * list event.

Definition ret {A} (a : A) : M A := fun w => (inr a, w, []).

Definition raise {A} (e : io_error) : M A := fun w => (inl e, w, []).

Definition bind {A B} (m : M A) (k : A -> M B) : M B :=
  fun w =>
    match m w with
    | (inl e, w1, t1) => (inl e, w1, t1)
    | (inr a, w1, t1) =>
        match k a w1 with
        | (r, w2, t2) => (r, w2, t1 ++ t2)
        end
    end.

(** [try: m  except <errors selected by handles>: handler] *)
Definition try_except {A} (m : M A) (handles : io_error -> bool)
    (handler : io_error -> M A) : M A :=
  fun w =>
    match m w with
    | (inl e, w1, t1) =>
        if handles e then
          match handler e w1 with
          | (r, w2, t2) => (r, w2, t1 ++ t2)
          end
        else (inl e, w1, t1)
    | (inr a, w1, t1) => (inr a, w1, t1)
    end.

Definition log (ev : event) : M unit := fun w => (inr tt, w, [ev]).

Definition get_fs : M (gmap string node) := fun w => (inr (fs w), w, []).

Definition put_fs (f : gmap string node) : M unit :=
  fun w => (inr tt, mkWorld f (faults w) (default_font w), []).

Definition get_font : M PIL.font := fun w => (inr (default_font w), w, []).

(** Takes the slot of the next system call from the fault plan. *)
Definition next_fault : M (option fault) :=
  fun w =>
    match faults w with
    | [] => (inr None, w, [])
    | f :: rest => (inr f, mkWorld (fs w) rest (default_font w), [])
    end.

Fixpoint for_each {A} (l : list A) (body : A -> M unit) : M unit :=
  match l with
  | [] => ret tt
  | x :: l' => bind (body x) (fun _ => for_each l' body)
  end.

Definition value {A} (o : (io_error + A) * world * list event) : io_error + A :=
  fst (fst o).
Definition final {A} (o : (io_error + A) * world * list event) : world :=
  snd (fst o).
Definition events {A} (o : (io_error + A) * world * list event) : list event :=
  snd o.

End Sys.

Notation "x <- m ;; k" := (Sys.bind m (fun x => k))
  (at level 100, m at next level, right associativity).
Notation "m ;;; k" := (Sys.bind m (fun _ => k))
  (at level 100, right associativity).

(* ===================================================================== *)
(** ** The [os] calls and the effectful face of the imaging calls         *)
(* ===================================================================== *)

Module OS.
Import Sys.

(** [s.rstrip("/")] *)
Fixpoint rstrip_sep (s : string) : string :=
  match s with
  | EmptyString => EmptyString
  | String c s' =>
      match rstrip_sep s' with
      | EmptyString => if Ascii.eqb c "/" then EmptyString else String c EmptyString
      | r => String c r
      end
  end.

(** [(p[:i], p[i:])] for [i = p.rfind("/") + 1] *)
Fixpoint cut_after_last_sep (p : string) : string * string :=
  match p with
  | EmptyString => (EmptyString, EmptyString)
  | String c p' =>
      match cut_after_last_sep p' with
      | (EmptyString, _) =>
          if Ascii.eqb c "/" then (String c EmptyString, p')
          else (EmptyString, String c p')
      | (h, t) => (String c h, t)
      end
  end.

(** [os.path.split(p)] of [posixpath] *)
Definition path_split (p : string) : string * string :=
  let '(head, tail) := cut_after_last_sep p in
  (match rstrip_sep head with
   | EmptyString => head
   | stripped => stripped
   end, tail).

Definition nonempty (s : string) : bool :=
  match s with EmptyString => false | _ => true end.

(** [os.path.exists] and [os.path.isdir] on a file tree *)
Definition path_exists (t : gmap string node) (p : string) : bool :=
  match t !! p with Some _ => true | None => false end.

Definition isdir (t : gmap string node) (p : string) : bool :=
  match t !! p with Some Dir => true | _ => false end.

(** The directory a new entry [p] goes into; the working directory (the
    empty head) always exists. *)
Definition parent (t : gmap string node) (p : string) : option node :=
  match fst (path_split p) with
  | EmptyString => Some Dir
  | head => t !! head
  end.

(** [os.mkdir(name)]: one system call. *)
Definition mkdir (name : string) : M unit :=
  f <- next_fault ;;
  match f with
  | Some flt => raise (fault_error flt)
  | None =>
      t <- get_fs ;;
      match t !! name with
      | Some _ => raise (FileExistsError name)
      | None =>
          match parent t name with
          | Some Dir => put_fs (<[name := Dir]> t)
          | Some (File _) => raise (NotADirectoryError name)
          | None => raise (FileNotFoundError name)
          end
      end
  end.

(** The body of [os.makedirs(name, exist_ok=...)], recursing on the head of
    the path; [fuel] bounds the depth of the recursion. *)
Fixpoint makedirs_rec (fuel : nat) (name : string) (exist_ok : bool) : M unit :=
  match fuel with
  | O => raise RecursionError
  | S fuel' =>
      let '(head, tail) := path_split name in
      let '(head, tail) :=
        if nonempty tail then (head, tail) else path_split head in
      t <- get_fs ;;
      done <- (if nonempty head && nonempty tail && negb (path_exists t head)
               then
                 try_except (makedirs_rec fuel' head exist_ok)
                            is_FileExistsError (fun _ => ret tt) ;;;
                 ret (String.eqb tail ".")
               else ret false) ;;
      if done : bool then ret tt
      else
        try_except (mkdir name) is_OSError
          (fun e =>
             t' <- get_fs ;;
             if negb exist_ok || negb (isdir t' name)
             then raise e else ret tt)
  end.

Definition makedirs (name : string) (exist_ok : bool) : M unit :=
  log (EvMakedirs name exist_ok) ;;;
  makedirs_rec (S (String.length name)) name exist_ok.

Definition apply_leftover (l : leftover) (path : string)
    (t : gmap string node) : gmap string node :=
  match l with
  | Untouched => t
  | Removed => delete path t
  | Partial data => <[path := File (Raw data)]> t
  end.

(** [img.save(path)]: the file is opened for writing (created or
    truncated), the PNG encoding is written.  Opening fails on a directory
    or under a missing parent; a failure injected after that leaves the
    target as the fault says and no other path touched. *)
Definition save (im : PIL.Image) (path : string) : M unit :=
  log (EvSave im path) ;;;
  f <- next_fault ;;
  t <- get_fs ;;
  match t !! path with
  | Some Dir => raise (IsADirectoryError path)
  | _ =>
      match parent t path with
      | None => raise (FileNotFoundError path)
      | Some (File _) => raise (NotADirectoryError path)
      | Some Dir =>
          match f with
          | Some flt =>
              put_fs (apply_leftover (fault_leftover flt) path t) ;;;
              raise (fault_error flt)
          | None => put_fs (<[path := File (Png im)]> t)
          end
      end
  end.

(** [print(line)]; writing to the standard output is taken not to fail. *)
Definition print (line : string) : M unit := log (EvPrint line).

(** [Image.new(...)], [draw.rectangle(...)] and [draw.text(...)] as calls:
    each is recorded and returns the image it leaves.  [draw.text] is
    given no font and takes the library's default one. *)
Definition Image_new (m : PIL.mode) (size : Z * Z) (c : PIL.color) : M PIL.Image :=
  log (EvNew m size c) ;;; ret (PIL.new m size c).

Definition draw_rectangle (im : PIL.Image) (xy : Z * Z * Z * Z)
    (fill outline : option PIL.color) (width : Z) : M PIL.Image :=
  log (EvRectangle xy fill outline width) ;;;
  ret (PIL.rectangle im xy fill outline width).

Definition draw_text (im : PIL.Image) (xy : Z * Z) (s : string)
    (fill : PIL.color) : M PIL.Image :=
  log (EvText xy s fill) ;;;
  f <- get_font ;;
  ret (PIL.text f im xy s fill).

End OS.

(* ===================================================================== *)
(** ** [create_icons.py]: rectangle and label on a transparent canvas     *)
(* ===================================================================== *)

Module CreateIcons.
Import Sys OS.

(** List of icon names to create *)
Definition icons : list string :=
  [ "hobo_cape_icon"; "cool_shades_icon"; "cardboard_armor_icon";
    "extra_life_icon" ].

(** Colors for each icon *)
Definition colors : gmap string PIL.color :=
  <["hobo_cape_icon" := PIL.Color3 120 120 120]>
  (<["cool_shades_icon" := PIL.Color3 50 50 50]>
  (<["cardboard_armor_icon" := PIL.Color3 160 120 80]>
  (<["extra_life_icon" := PIL.Color3 200 50 50]> ∅))).

(** [colors.get(icon_name, (100, 100, 100))] *)
Definition color (icon_name : string) : PIL.color :=
  default (PIL.Color3 100 100 100) (colors !! icon_name).

Definition display_name (icon_name : string) : string :=
  Py.title (Py.replace (Py.replace icon_name "_icon" "") "_" " ").

Definition text_color : PIL.color := PIL.Color3 255 255 255.

Definition text_width (display_name : string) : Z := Py.len display_name * 10.

Definition text_x (text_width : Z) : Z := (256 - text_width) / 2.

Definition text_y : Z := 128 - 10.

Definition path (icon_name : string) : string :=
  Py.path_join "assets/product_icons" (icon_name +:+ ".png").

(** The body of the loop, for one [icon_name]. *)
Definition body (icon_name : string) : M unit :=
  img <- Image_new PIL.RGBA (256, 256) (PIL.Color4 0 0 0 0) ;;
  let color := color icon_name in
  img <- draw_rectangle img (20, 20, 236, 236) (Some color)
           (Some (PIL.Color3 255 255 255)) 5 ;;
  let display_name := display_name icon_name in
  let text_color := text_color in
  let text_width := text_width display_name in
  let text_x := text_x text_width in
  let text_y := text_y in
  img <- draw_text img (text_x, text_y) display_name text_color ;;
  let path := path icon_name in
  save img path ;;;
  print ("Created " +:+ path).

Definition main : M unit :=
  makedirs "assets/product_icons" true ;;;
  for_each icons body ;;;
  print "All product icons created successfully!".

End CreateIcons.

(* ===================================================================== *)
(** ** [create_product_icons.py]: rectangle on a blue canvas, no text     *)
(* ===================================================================== *)

Module CreateProductIcons.
Import Sys OS.

(** Icon names *)
Definition icons : list string :=
  [ "hobo_cape_icon"; "cool_shades_icon"; "cardboard_armor_icon";
    "extra_life_icon" ].

Definition product_icon_path (icon : string) : string :=
  "assets/product_icons/" +:+ icon +:+ ".png".

(** The body of the loop, for one [icon]. *)
Definition body (icon : string) : M unit :=
  print ("Creating " +:+ icon) ;;;
  img <- Image_new PIL.RGB (256, 256) (PIL.Color3 100 150 200) ;;
  img <- draw_rectangle img (50, 50, 206, 206) (Some (PIL.Color3 70 90 150))
           (Some (PIL.Color3 255 255 255)) 3 ;;
  let product_icon_path := product_icon_path icon in
  save img product_icon_path ;;;
  print ("Saved " +:+ product_icon_path).

Definition main : M unit :=
  makedirs "assets/product_icons" true ;;;
  for_each icons body ;;;
  print "All product icons created successfully!".

End CreateProductIcons.

(* ===================================================================== *)
(** ** What the specification talks about                                 *)
(* ===================================================================== *)

Module Spec.
Import Sys.

(** The label as the specification words it: strip a trailing ["_icon"],
    replace underscores with spaces, title-case each word.  It is written
    with its own functions, not with the string methods the script calls:
    the words are the pieces between spaces, and a word is title-cased by
    putting its first letter in upper case and the others in lower case. *)
Definition upcase (c : ascii) : ascii :=
  let n := N_of_ascii c in
  if ((97 <=? n) && (n <=? 122))%N then ascii_of_N (n - 32) else c.

Definition downcase (c : ascii) : ascii :=
  let n := N_of_ascii c in
  if ((65 <=? n) && (n <=? 90))%N then ascii_of_N (n + 32) else c.

Fixpoint downcase_all (w : string) : string :=
  match w with
  | EmptyString => EmptyString
  | String c w' => String (downcase c) (downcase_all w')
  end.

Definition capitalize (w : string) : string :=
  match w with
  | EmptyString => EmptyString
  | String c w' => String (upcase c) (downcase_all w')
  end.

Fixpoint underscores_to_spaces (s : string) : string :=
  match s with
  | EmptyString => EmptyString
  | String c s' =>
      String (if Ascii.eqb c "_" then " "%char else c) (underscores_to_spaces s')
  end.

(** The pieces of [s] between spaces. *)
Fixpoint split_words (s : string) : list string :=
  match s with
  | EmptyString => [EmptyString]
  | String c s' =>
      if Ascii.eqb c " " then EmptyString :: split_words s'
      else match split_words s' with
           | w :: ws => String c w :: ws
           | [] => [String c EmptyString]
           end
  end.

(** The words put together again, a space before each but the first. *)
Fixpoint spaced (ws : list string) : string :=
  match ws with
  | [] => EmptyString
  | w :: ws' => String " " (w +:+ spaced ws')
  end.

Definition join_words (ws : list string) : string :=
  match ws with
  | [] => EmptyString
  | w :: ws' => w +:+ spaced ws'
  end.

Definition spec_label (name : string) : string :=
  join_words
    (map capitalize
       (split_words (underscores_to_spaces (Py.removesuffix name "_icon")))).

(** Names made of ASCII letters, underscores and spaces only. *)
Fixpoint plain_name (s : string) : bool :=
  match s with
  | EmptyString => true
  | String c s' =>
      (Py.is_cased c || Ascii.eqb c "_" || Ascii.eqb c " ") && plain_name s'
  end.

(** The images the two loop bodies hand to [save]. *)
Definition icon_image (f : PIL.font) (icon_name : string) : PIL.Image :=
  PIL.text f
    (PIL.rectangle (PIL.new PIL.RGBA (256, 256) (PIL.Color4 0 0 0 0))
       (20, 20, 236, 236) (Some (CreateIcons.color icon_name))
       (Some (PIL.Color3 255 255 255)) 5)
    (CreateIcons.text_x (CreateIcons.text_width (CreateIcons.display_name icon_name)),
     CreateIcons.text_y)
    (CreateIcons.display_name icon_name) CreateIcons.text_color.

Definition product_icon_image : PIL.Image :=
  PIL.rectangle (PIL.new PIL.RGB (256, 256) (PIL.Color3 100 150 200))
    (50, 50, 206, 206) (Some (PIL.Color3 70 90 150))
    (Some (PIL.Color3 255 255 255)) 3.

(** The four output files. *)
Definition expected_paths : list string :=
  [ "assets/product_icons/hobo_cape_icon.png";
    "assets/product_icons/cool_shades_icon.png";
    "assets/product_icons/cardboard_armor_icon.png";
    "assets/product_icons/extra_life_icon.png" ].

(** Reading a pixel back from a file of the tree, as a test would do with
    [Image.open(path).getpixel(xy)]. *)
Definition pixel_of_file (t : gmap string node) (path : string)
    (xy : Z * Z) : option PIL.color :=
  match t !! path with
  | Some (File (Png im)) => PIL.getpixel im xy
  | _ => None
  end.

(** Selections of a trace. *)
Definition rectangles (t : list event) : list event :=
  List.filter
    (fun e => match e with EvRectangle _ _ _ _ => true | _ => false end) t.

Definition canvases (t : list event) : list event :=
  List.filter
    (fun e => match e with EvNew _ _ _ => true | _ => false end) t.

Definition texts (t : list event) : list event :=
  List.filter
    (fun e => match e with EvText _ _ _ => true | _ => false end) t.

(** The steps of a run that matter for ordering: creating the directory,
    allocating a canvas, writing a file. *)
Inductive step :=
  | StepMakedirs (name : string)
  | StepNew
  | StepSave (path : string).

Definition step_of (e : event) : list step :=
  match e with
  | EvMakedirs name _ => [StepMakedirs name]
  | EvNew _ _ _ => [StepNew]
  | EvSave _ path => [StepSave path]
  | _ => []
  end.

Definition steps (t : list event) : list step := concat (map step_of t).

(** The files handed to [save], with their images, in order. *)
Definition saved_of (e : event) : list (string * PIL.Image) :=
  match e with
  | EvSave im path => [(path, im)]
  | _ => []
  end.

Definition saved (t : list event) : list (string * PIL.Image) :=
  concat (map saved_of t).

(** A run in which the environment injects no failure. *)
Definition fault_free (w : world) : Prop :=
  Forall (fun f => f = None) (faults w).

End Spec.

(* ===================================================================== *)
(** ** Auxiliary descriptions used in the proofs                          *)
(* ===================================================================== *)

Module Shape.
Import Sys OS.

(** The world after one system call has taken its slot of the fault plan,
    and the slot it took. *)
Definition pop (w : world) : world :=
  mkWorld (fs w) (tail (faults w)) (default_font w).

Definition slot (w : world) : option fault :=
  match faults w with f :: _ => f | [] => None end.

(** [mkdir(name)] under the handler of [makedirs(..., exist_ok=True)]: an
    error is swallowed when [name] is a directory. *)
Definition mkdir_exist_ok (name : string) (w : world) : (io_error + unit) * world :=
  match slot w with
  | Some flt =>
      (if is_OSError (fault_error flt) && isdir (fs w) name
       then inr tt else inl (fault_error flt), pop w)
  | None =>
      match fs w !! name with
      | Some Dir => (inr tt, pop w)
      | Some (File _) => (inl (FileExistsError name), pop w)
      | None =>
          match parent (fs w) name with
          | Some Dir =>
              (inr tt, mkWorld (<[name := Dir]> (fs w)) (tail (faults w))
                               (default_font w))
          | Some (File _) => (inl (NotADirectoryError name), pop w)
          | None => (inl (FileNotFoundError name), pop w)
          end
      end
  end.

(** [makedirs("assets/product_icons", exist_ok=True)] with its recursion
    unrolled: at most ["assets"], then ["assets/product_icons"]. *)
Definition makedirs_flat (w : world) : (io_error + unit) * world * list event :=
  let '(r1, w1) :=
    if path_exists (fs w) "assets" then (inr tt, w)
    else
      let '(r, w1) := mkdir_exist_ok "assets" w in
      (match r with
       | inl e => if is_FileExistsError e then inr tt else inl e
       | inr _ => r
       end, w1) in
  match r1 with
  | inl e => (inl e, w1, [EvMakedirs "assets/product_icons" true])
  | inr _ =>
      let '(r2, w2) := mkdir_exist_ok "assets/product_icons" w1 in
      (r2, w2, [EvMakedirs "assets/product_icons" true])
  end.

(** A tree that differs from another only by directories added where
    nothing was. *)
Definition grows (t t' : gmap string node) : Prop :=
  forall q, t' !! q = t !! q \/ (t !! q = None /\ t' !! q = Some Dir).

(** The tree after the files of the names [l] have been written, in order. *)
Fixpoint write_all (image : string -> PIL.Image) (path : string -> string)
    (l : list string) (t : gmap string node) : gmap string node :=
  match l with
  | [] => t
  | n :: l' => write_all image path l' (<[path n := File (Png (image n))]> t)
  end.

(** The common shape of the two scripts. *)
Definition script (body : string -> M unit) : M unit :=
  makedirs "assets/product_icons" true ;;;
  for_each CreateIcons.icons body ;;;
  print "All product icons created successfully!".

(** The steps of one iteration. *)
Definition iteration (path : string -> string) (n : string) : list Spec.step :=
  [Spec.StepNew; Spec.StepSave (path n)].

End Shape.

(* ===================================================================== *)
(** ** The two variants side by side                                      *)
(* ===================================================================== *)

Module Variants.
Import Sys OS.

(** Variant A is [create_icons.py], variant B is [create_product_icons.py]. *)
Inductive variant := VariantA | VariantB.

Definition main (v : variant) : M unit :=
  match v with
  | VariantA => CreateIcons.main
  | VariantB => CreateProductIcons.main
  end.

Definition body (v : variant) : string -> M unit :=
  match v with
  | VariantA => CreateIcons.body
  | VariantB => CreateProductIcons.body
  end.

Definition path (v : variant) : string -> string :=
  match v with
  | VariantA => CreateIcons.path
  | VariantB => CreateProductIcons.product_icon_path
  end.

Definition image (v : variant) (f : PIL.font) (name : string) : PIL.Image :=
  match v with
  | VariantA => Spec.icon_image f name
  | VariantB => Spec.product_icon_image
  end.

(** A font for examples: every character is a solid cell, [cw] pixels
    wide and [ch] pixels high. *)
Definition block_font (cw ch : Z) : PIL.font :=
  fun s dx dy =>
    if (0 <=? dx) && (dx <? cw * Py.len s) && (0 <=? dy) && (dy <? ch)
    then 255 else 0.

(** An empty working directory, no injected failure. *)
Definition fresh_world (f : PIL.font) : world := mkWorld ∅ [] f.

(** An empty working directory on a disk that fills up during the second
    write (the fourth system call, after two [mkdir] and one write),
    leaving three bytes of the file. *)
Definition disk_full : io_error :=
  OSError 28 "assets/product_icons/cool_shades_icon.png".

Definition filling_world (f : PIL.font) : world :=
  mkWorld ∅ [None; None; None; Some (mkFault disk_full (Partial "PNG"))] f.

(** The outcome of a run that wrote the four icons: the files handed to
    [save] are the four expected paths, each holds a PNG of 256 by 256
    pixels afterwards, and no other file of the tree appeared, vanished or
    changed. *)
Definition four_icons (before : gmap string node)
    (o : (io_error + unit) * world * list event) : Prop :=
  map fst (Spec.saved (events o)) = Spec.expected_paths /\
  List.NoDup Spec.expected_paths /\
  (forall p, In p Spec.expected_paths ->
     exists im, In (p, im) (Spec.saved (events o)) /\
                fs (final o) !! p = Some (File (Png im)) /\
                PIL.im_size im = (256, 256)) /\
  (forall q c, ~ In q Spec.expected_paths ->
     (fs (final o) !! q = Some (File c) <-> before !! q = Some (File c))).

End Variants.

(* ===================================================================== *)
(** ** What a run prints                                                  *)
(* ===================================================================== *)

Module Output.
Import Sys OS.

(** The lines written to the standard output, in order. *)
Definition printed_of (e : event) : list string :=
  match e with
  | EvPrint line => [line]
  | _ => []
  end.

Definition printed (t : list event) : list string :=
  concat (map printed_of t).

(** The last line of both scripts. *)
Definition completion_line : string :=
  "All product icons created successfully!".

(** The line an iteration prints before its write (variant B only) and
    the line it prints after it. *)
Definition started_lines (v : Variants.variant) (name : string) : list string :=
  match v with
  | Variants.VariantA => []
  | Variants.VariantB => ["Creating " +:+ name]
  end.

Definition written_line (v : Variants.variant) (path : string) : string :=
  match v with
  | Variants.VariantA => "Created " +:+ path
  | Variants.VariantB => "Saved " +:+ path
  end.

End Output.

(* ===================================================================== *)
(** * Properties                                                          *)
(* ===================================================================== *)

Import Sys OS Spec Shape Variants Output.

(** ** Strings *)

Lemma replace_absent old s :
  Py.contains old s = false -> Py.replace_from old "" 0 s = s.
Proof.
  induction s as [|c s IH]; intros H.
  - destruct old; [discriminate | reflexivity].
  - cbn [Py.contains] in H. apply orb_false_elim in H as [Hp Hc].
    cbn [Py.replace_from]. rewrite Hp. f_equal. auto.
Qed.

(** An occurrence of ["_icon"] that starts inside [u] in [u ++ "_icon"]
    lies inside [u]: the pattern has its only underscore in front. *)
Lemma startswith_icon_app u :
  u <> EmptyString ->
  Py.startswith "_icon" (u +:+ "_icon") = Py.startswith "_icon" u.
Proof.
  intros Hu.
  destruct u as [|a1 [|a2 [|a3 [|a4 [|a5 u]]]]]; try congruence;
    cbv -[Ascii.eqb];
    repeat match goal with
           | |- context [Ascii.eqb ?x ?y] =>
               is_var y; destruct (Ascii.eqb x y)
           end; reflexivity.
Qed.

Lemma replace_trailing_icon t :
  Py.contains "_icon" t = false ->
  Py.replace (t +:+ "_icon") "_icon" "" = t.
Proof.
  unfold Py.replace. induction t as [|c t IH]; intros H.
  - reflexivity.
  - cbn [Py.contains] in H. apply orb_false_elim in H as [Hp Hc].
    change (String c t +:+ "_icon") with (String c (t +:+ "_icon")).
    cbn [Py.replace_from].
    change (String c (t +:+ "_icon")) with (String c t +:+ "_icon").
    rewrite startswith_icon_app by discriminate. rewrite Hp.
    f_equal. auto.
Qed.

Lemma removesuffix_cases s suf :
  (exists t, s = t +:+ suf /\ Py.removesuffix s suf = t) \/
  Py.removesuffix s suf = s.
Proof.
  induction s as [|c s IH].
  - right. reflexivity.
  - cbn [Py.removesuffix]. destruct (String.eqb (String c s) suf) eqn:E.
    + apply String.eqb_eq in E. left. exists EmptyString. split; [exact E | reflexivity].
    + destruct IH as [(t & Hs & Hr) | Hr].
      * left. exists (String c t). rewrite Hr. split; [ | reflexivity].
        rewrite Hs at 1. reflexivity.
      * right. rewrite Hr. reflexivity.
Qed.

(** ** The primitive calls *)

Lemma save_events im p w : events (save im p w) = [EvSave im p].
Proof.
  destruct w as [t fl fnt]. unfold save, events, bind, log, next_fault, get_fs.
  destruct fl as [|[flt|] fl]; cbn;
    destruct (t !! p) as [[|c]|]; destruct (parent t p) as [[|c']|];
    reflexivity.
Qed.

Lemma save_font im p w : default_font (final (save im p w)) = default_font w.
Proof.
  destruct w as [t fl fnt]. unfold save, final, bind, log, next_fault, get_fs.
  destruct fl as [|[flt|] fl]; cbn;
    destruct (t !! p) as [[|c]|]; destruct (parent t p) as [[|c']|];
    reflexivity.
Qed.

Lemma save_fault_free im p w : fault_free w -> fault_free (final (save im p w)).
Proof.
  destruct w as [t fl fnt]. unfold fault_free. cbn [faults]. intros H.
  unfold save, final, bind, log, next_fault, get_fs.
  destruct fl as [|[flt|] fl]; cbn;
    destruct (t !! p) as [[|c]|]; destruct (parent t p) as [[|c']|];
    cbn; try assumption; inversion H; subst; try assumption; discriminate.
Qed.

Lemma apply_leftover_other l p q (t : gmap string node) :
  q <> p -> apply_leftover l p t !! q = t !! q.
Proof.
  intros Hq. destruct l; cbn.
  - reflexivity.
  - apply lookup_delete_ne. congruence.
  - apply lookup_insert_ne. congruence.
Qed.

(** A write, failed or not, touches no path but its own. *)
Lemma save_other im p q w :
  q <> p -> fs (final (save im p w)) !! q = fs w !! q.
Proof.
  intros Hq. destruct w as [t fl fnt].
  unfold save, final, bind, log, next_fault, get_fs.
  destruct fl as [|[flt|] fl]; cbn;
    destruct (t !! p) as [[|c]|]; destruct (parent t p) as [[|c']|];
    cbn; try reflexivity;
    try (apply lookup_insert_ne; congruence);
    apply apply_leftover_other; assumption.
Qed.

(** What a write that returned has done. *)
Lemma save_returned im p w :
  value (save im p w) = inr tt ->
  fs (final (save im p w)) = <[p := File (Png im)]> (fs w) /\
  parent (fs w) p = Some Dir.
Proof.
  destruct w as [t fl fnt].
  unfold save, value, final, bind, log, next_fault, get_fs.
  destruct fl as [|[flt|] fl]; cbn;
    destruct (t !! p) as [[|c]|]; destruct (parent t p) as [[|c']|];
    cbn; intros H; try discriminate; split; reflexivity.
Qed.

(** When a write returns: no injected failure, a directory to write into,
    and a target that is not itself a directory. *)
Lemma save_returns im p w :
  fault_free w -> fs w !! p <> Some Dir -> parent (fs w) p = Some Dir ->
  value (save im p w) = inr tt.
Proof.
  destruct w as [t fl fnt]. unfold fault_free. cbn [faults fs].
  intros Hf Hp Hd.
  unfold save, value, final, bind, log, next_fault, get_fs.
  destruct fl as [|[flt|] fl]; cbn; rewrite Hd;
    destruct (t !! p) as [[|c]|]; cbn; try reflexivity; try congruence;
    inversion Hf; discriminate.
Qed.

(** Directories are neither made nor unmade by a write. *)
Lemma save_dirs im p q w :
  fs (final (save im p w)) !! q = Some Dir <-> fs w !! q = Some Dir.
Proof.
  destruct (decide (q = p)) as [->|Hq].
  2:{ rewrite save_other by assumption. reflexivity. }
  destruct w as [t fl fnt].
  unfold save, value, final, bind, log, next_fault, get_fs.
  destruct fl as [|[[e l]|] fl]; cbn;
    destruct (t !! p) as [[|c]|] eqn:Ep; destruct (parent t p) as [[|c']|];
    cbn; rewrite ?Ep; try reflexivity;
    try (rewrite lookup_insert_eq; split; congruence);
    destruct l; cbn; rewrite ?Ep, ?lookup_delete_eq, ?lookup_insert_eq;
    split; congruence.
Qed.

(** ** Directory creation *)

Lemma makedirs_flat_eq w :
  makedirs "assets/product_icons" true w = makedirs_flat w.
Proof.
  destruct w as [t fl fnt].
  unfold makedirs, makedirs_flat, mkdir_exist_ok, pop, slot.
  cbn [makedirs_rec String.length fs faults default_font].
  change (path_split "assets/product_icons") with ("assets", "product_icons").
  change (path_split "assets") with ("", "assets").
  change (String.eqb "product_icons" ".") with false.
  unfold bind, log, get_fs, try_except, mkdir, next_fault, ret, raise,
    put_fs, path_exists, isdir, parent.
  change (path_split "assets/product_icons") with ("assets", "product_icons").
  change (path_split "assets") with ("", "assets").
  cbn [nonempty andb orb negb fst snd fs faults default_font].
  destruct (t !! "assets") as [[|?]|] eqn:Ea;
    destruct fl as [|[[e ?]|] [|[[e' ?]|] fl]]; cbn; rewrite ?Ea;
    cbn -[lookup insert];
    repeat match goal with
      | |- _ => reflexivity
      | |- context [is_OSError ?x] => is_var x; destruct x; cbn
      | |- context [is_FileExistsError ?x] => is_var x; destruct x; cbn
      | |- context [match ?m !! ?k with _ => _ end] =>
          let E := fresh "E" in
          destruct (m !! k) as [[|?]|] eqn:E; cbn;
          rewrite ?E, ?lookup_insert_eq; cbn; try congruence
      end.
Qed.

Lemma grows_refl t : grows t t.
Proof. intros q. left. reflexivity. Qed.

Lemma grows_trans t1 t2 t3 : grows t1 t2 -> grows t2 t3 -> grows t1 t3.
Proof.
  intros H12 H23 q. destruct (H12 q) as [E1|[E1 E1']], (H23 q) as [E2|[E2 E2']].
  - left. congruence.
  - right. split; congruence.
  - right. split; congruence.
  - congruence.
Qed.

Lemma grows_insert_dir (t : gmap string node) name :
  t !! name = None -> grows t (<[name := Dir]> t).
Proof.
  intros Hn q. destruct (decide (name = q)) as [<-|Hq].
  - right. split; [assumption | apply lookup_insert_eq].
  - left. apply lookup_insert_ne. assumption.
Qed.

Lemma grows_dir t t' q : grows t t' -> t !! q = Some Dir -> t' !! q = Some Dir.
Proof. intros H Hq. destruct (H q) as [E|[E _]]; congruence. Qed.

Lemma grows_file t t' q c :
  grows t t' -> (t' !! q = Some (File c) <-> t !! q = Some (File c)).
Proof.
  intros H. destruct (H q) as [E|[E E']]; rewrite ?E, ?E'; [reflexivity|].
  split; discriminate.
Qed.

Lemma fault_free_pop w : fault_free w -> fault_free (pop w).
Proof.
  unfold fault_free, pop. cbn. destruct (faults w); cbn; [auto|].
  inversion 1; assumption.
Qed.

Lemma fault_free_slot w : fault_free w -> slot w = None.
Proof.
  unfold fault_free, slot. destruct (faults w); [reflexivity|].
  inversion 1; assumption.
Qed.

Lemma mkdir_exist_ok_font name w :
  default_font (mkdir_exist_ok name w).2 = default_font w.
Proof.
  unfold mkdir_exist_ok.
  destruct (slot w); [reflexivity|].
  destruct (fs w !! name) as [[|?]|]; try reflexivity.
  destruct (parent (fs w) name) as [[|?]|]; reflexivity.
Qed.

Lemma mkdir_exist_ok_fault_free name w :
  fault_free w -> fault_free (mkdir_exist_ok name w).2.
Proof.
  intros H. pose proof (fault_free_pop w H) as Hp. unfold mkdir_exist_ok.
  destruct (slot w); [assumption|].
  destruct (fs w !! name) as [[|?]|]; try assumption.
  destruct (parent (fs w) name) as [[|?]|]; assumption.
Qed.

Lemma mkdir_exist_ok_grows name w :
  grows (fs w) (fs (mkdir_exist_ok name w).2).
Proof.
  unfold mkdir_exist_ok.
  destruct (slot w); [apply grows_refl|].
  destruct (fs w !! name) as [[|?]|] eqn:E; try apply grows_refl.
  destruct (parent (fs w) name) as [[|?]|]; try apply grows_refl.
  apply grows_insert_dir; assumption.
Qed.

Lemma mkdir_exist_ok_returned name w :
  (mkdir_exist_ok name w).1 = inr tt ->
  fs (mkdir_exist_ok name w).2 !! name = Some Dir.
Proof.
  unfold mkdir_exist_ok, isdir.
  destruct (slot w) as [flt|].
  - cbn. destruct (is_OSError (fault_error flt));
      destruct (fs w !! name) as [[|?]|]; cbn; congruence.
  - destruct (fs w !! name) as [[|?]|] eqn:E; cbn; try congruence.
    destruct (parent (fs w) name) as [[|?]|]; cbn; try congruence.
    intros _. apply lookup_insert_eq.
Qed.

Lemma mkdir_exist_ok_returns name w :
  fault_free w ->
  fs w !! name = Some Dir \/
  (fs w !! name = None /\ parent (fs w) name = Some Dir) ->
  (mkdir_exist_ok name w).1 = inr tt.
Proof.
  intros Hf H. unfold mkdir_exist_ok. rewrite (fault_free_slot w Hf).
  destruct H as [E|[E Ep]]; rewrite E; [reflexivity|].
  rewrite Ep. reflexivity.
Qed.

(** Everything the proofs below use about one guarded [mkdir], stated on
    its two components. *)
Lemma mkdir_exist_ok_facts name w r w' :
  mkdir_exist_ok name w = (r, w') ->
  default_font w' = default_font w /\
  (fault_free w -> fault_free w') /\
  grows (fs w) (fs w') /\
  (r = inr tt -> fs w' !! name = Some Dir).
Proof.
  intros E.
  pose proof (mkdir_exist_ok_font name w) as H1.
  pose proof (mkdir_exist_ok_fault_free name w) as H2.
  pose proof (mkdir_exist_ok_grows name w) as H3.
  pose proof (mkdir_exist_ok_returned name w) as H4.
  rewrite E in H1, H2, H3, H4. cbn in H1, H2, H3, H4. auto.
Qed.

Lemma makedirs_events w :
  events (makedirs "assets/product_icons" true w) =
  [EvMakedirs "assets/product_icons" true].
Proof.
  rewrite makedirs_flat_eq. unfold makedirs_flat.
  destruct (path_exists (fs w) "assets").
  - destruct (mkdir_exist_ok "assets/product_icons" w). reflexivity.
  - destruct (mkdir_exist_ok "assets" w) as [[e|[]] w1].
    + destruct (is_FileExistsError e); [|reflexivity].
      destruct (mkdir_exist_ok "assets/product_icons" w1). reflexivity.
    + destruct (mkdir_exist_ok "assets/product_icons" w1). reflexivity.
Qed.

Lemma makedirs_facts w :
  let o := makedirs "assets/product_icons" true w in
  default_font (final o) = default_font w /\
  (fault_free w -> fault_free (final o)) /\
  grows (fs w) (fs (final o)) /\
  (value o = inr tt -> fs (final o) !! "assets/product_icons" = Some Dir).
Proof.
  cbv zeta. rewrite makedirs_flat_eq. unfold makedirs_flat, value, final.
  destruct (path_exists (fs w) "assets").
  - destruct (mkdir_exist_ok "assets/product_icons" w) as [r2 w2] eqn:E2.
    cbn. exact (mkdir_exist_ok_facts _ _ _ _ E2).
  - destruct (mkdir_exist_ok "assets" w) as [r1 w1] eqn:E1.
    destruct (mkdir_exist_ok_facts _ _ _ _ E1) as (F1 & G1 & H1 & _).
    assert (Hnext :
      let o := let '(r2, w2) := mkdir_exist_ok "assets/product_icons" w1 in
               (r2, w2, [EvMakedirs "assets/product_icons" true]) in
      default_font o.1.2 = default_font w /\
      (fault_free w -> fault_free o.1.2) /\
      grows (fs w) (fs o.1.2) /\
      (o.1.1 = inr tt -> fs o.1.2 !! "assets/product_icons" = Some Dir)).
    { destruct (mkdir_exist_ok "assets/product_icons" w1) as [r2 w2] eqn:E2.
      destruct (mkdir_exist_ok_facts _ _ _ _ E2) as (F2 & G2 & H2 & R2).
      cbn. repeat split; [congruence | auto | | assumption].
      eapply grows_trans; eassumption. }
    destruct r1 as [e|[]]; [destruct (is_FileExistsError e)|];
      try exact Hnext.
    cbn. repeat split; [assumption | assumption | assumption | discriminate].
Qed.

Lemma makedirs_returns w :
  fault_free w -> fs w !! "assets/product_icons" = Some Dir ->
  value (makedirs "assets/product_icons" true w) = inr tt.
Proof.
  intros Hf Hd. rewrite makedirs_flat_eq. unfold makedirs_flat, value.
  destruct (path_exists (fs w) "assets") eqn:Ex.
  - pose proof (mkdir_exist_ok_returns "assets/product_icons" w Hf (or_introl Hd)) as R.
    destruct (mkdir_exist_ok "assets/product_icons" w). exact R.
  - destruct (mkdir_exist_ok "assets" w) as [r1 w1] eqn:E1.
    destruct (mkdir_exist_ok_facts _ _ _ _ E1) as (F1 & G1 & H1 & _).
    assert (R : (mkdir_exist_ok "assets/product_icons" w1).1 = inr tt).
    { apply mkdir_exist_ok_returns; [auto|]. left.
      eapply grows_dir; eassumption. }
    assert (r1 = inr tt) as ->.
    { pose proof (mkdir_exist_ok_returns "assets" w Hf) as R1.
      rewrite E1 in R1. cbn in R1. apply R1. right.
      unfold path_exists in Ex. unfold OS.parent.
      change (path_split "assets") with ("", "assets"). cbn.
      destruct (fs w !! "assets"); [discriminate | auto]. }
    destruct (mkdir_exist_ok "assets/product_icons" w1). exact R.
Qed.

(** ** Sequencing *)

Lemma bind_raised {A B} (m : M A) (k : A -> M B) w e :
  value (m w) = inl e ->
  bind m k w = (inl e, final (m w), events (m w)).
Proof.
  unfold bind, value, final, events. destruct (m w) as [[[e'|a] w1] t1]; cbn.
  - intros [= ->]. reflexivity.
  - discriminate.
Qed.

Lemma bind_returned {A B} (m : M A) (k : A -> M B) w a :
  value (m w) = inr a ->
  bind m k w =
  (value (k a (final (m w))), final (k a (final (m w))),
   events (m w) ++ events (k a (final (m w)))).
Proof.
  unfold bind, value, final, events. destruct (m w) as [[[e'|a'] w1] t1]; cbn.
  - discriminate.
  - intros [= ->]. destruct (k a w1) as [[r w2] t2]. reflexivity.
Qed.

Lemma value_triple {A} (r : io_error + A) w t : value (r, w, t) = r.
Proof. reflexivity. Qed.

Lemma final_triple {A} (r : io_error + A) w t : final (r, w, t) = w.
Proof. reflexivity. Qed.

Lemma events_triple {A} (r : io_error + A) w t : events (r, w, t) = t.
Proof. reflexivity. Qed.

Ltac triples := rewrite ?value_triple, ?final_triple, ?events_triple.

Lemma steps_app t1 t2 : steps (t1 ++ t2) = steps t1 ++ steps t2.
Proof. unfold steps. rewrite map_app, concat_app. reflexivity. Qed.

Lemma saved_app t1 t2 : saved (t1 ++ t2) = saved t1 ++ saved t2.
Proof. unfold saved. rewrite map_app, concat_app. reflexivity. Qed.

Lemma parent_dirs (t t' : gmap string node) p :
  (forall q, t' !! q = Some Dir <-> t !! q = Some Dir) ->
  (parent t' p = Some Dir <-> parent t p = Some Dir).
Proof.
  intros H. unfold parent. destruct (path_split p).1; [reflexivity | apply H].
Qed.

(** ** The loop, for any body that draws and then saves *)

Section Loop.

Variable body : string -> M unit.
Variable image : PIL.font -> string -> PIL.Image.
Variable path : string -> string.

Hypothesis body_save : forall n w,
  value (body n w) = value (save (image (default_font w) n) (path n) w) /\
  final (body n w) = final (save (image (default_font w) n) (path n) w) /\
  steps (events (body n w)) = iteration path n /\
  saved (events (body n w)) = [(path n, image (default_font w) n)].

Lemma body_font n w : default_font (final (body n w)) = default_font w.
Proof. destruct (body_save n w) as (_ & -> & _). apply save_font. Qed.

Lemma body_fault_free n w : fault_free w -> fault_free (final (body n w)).
Proof. destruct (body_save n w) as (_ & -> & _). apply save_fault_free. Qed.

Lemma body_dirs n w q :
  fs (final (body n w)) !! q = Some Dir <-> fs w !! q = Some Dir.
Proof. destruct (body_save n w) as (_ & -> & _). apply save_dirs. Qed.

Lemma body_other n w q :
  q <> path n -> fs (final (body n w)) !! q = fs w !! q.
Proof. destruct (body_save n w) as (_ & -> & _). apply save_other. Qed.

Lemma body_returned n w :
  value (body n w) = inr tt ->
  fs (final (body n w)) =
  <[path n := File (Png (image (default_font w) n))]> (fs w).
Proof.
  destruct (body_save n w) as (-> & -> & _). intros H.
  apply save_returned in H as [H _]. exact H.
Qed.

Lemma for_each_cons n l w :
  for_each (n :: l) body w = bind (body n) (fun _ => for_each l body) w.
Proof. reflexivity. Qed.

Lemma for_each_font l w :
  default_font (final (for_each l body w)) = default_font w.
Proof.
  revert w. induction l as [|n l IH]; intros w; [reflexivity|].
  rewrite for_each_cons. destruct (value (body n w)) as [e|[]] eqn:E.
  - rewrite (bind_raised _ _ _ _ E). triples. apply body_font.
  - rewrite (bind_returned _ _ _ _ E). triples.
    rewrite IH. apply body_font.
Qed.

Lemma for_each_dirs l w q :
  fs (final (for_each l body w)) !! q = Some Dir <-> fs w !! q = Some Dir.
Proof.
  revert w. induction l as [|n l IH]; intros w; [reflexivity|].
  rewrite for_each_cons. destruct (value (body n w)) as [e|[]] eqn:E.
  - rewrite (bind_raised _ _ _ _ E). triples. apply body_dirs.
  - rewrite (bind_returned _ _ _ _ E). triples.
    rewrite IH. apply body_dirs.
Qed.

(** A loop that returned has written every file, in order. *)
Lemma for_each_returned l w :
  value (for_each l body w) = inr tt ->
  fs (final (for_each l body w)) =
    write_all (image (default_font w)) path l (fs w) /\
  steps (events (for_each l body w)) = flat_map (iteration path) l /\
  saved (events (for_each l body w)) =
    map (fun n => (path n, image (default_font w) n)) l.
Proof.
  revert w. induction l as [|n l IH]; intros w.
  - intros _. repeat split.
  - rewrite for_each_cons. destruct (value (body n w)) as [e|[]] eqn:E.
    + rewrite (bind_raised _ _ _ _ E). triples. discriminate.
    + rewrite (bind_returned _ _ _ _ E). triples.
      intros H. destruct (IH _ H) as (Hfs & Hst & Hsv).
      destruct (body_save n w) as (_ & _ & Bst & Bsv).
      rewrite body_font in Hfs, Hsv.
      rewrite steps_app, saved_app.
      rewrite Hfs, Hst, Hsv, Bst, Bsv. rewrite (body_returned _ _ E).
      repeat split.
Qed.

(** When the loop returns. *)
Lemma for_each_returns l w :
  fault_free w ->
  (forall n, In n l ->
     fs w !! path n <> Some Dir /\ parent (fs w) (path n) = Some Dir) ->
  value (for_each l body w) = inr tt.
Proof.
  revert w. induction l as [|n l IH]; intros w Hf Hl; [reflexivity|].
  assert (E : value (body n w) = inr tt).
  { destruct (body_save n w) as (-> & _).
    destruct (Hl n (or_introl eq_refl)). apply save_returns; assumption. }
  rewrite for_each_cons, (bind_returned _ _ _ _ E). triples.
  apply IH.
  - apply body_fault_free. assumption.
  - intros m Hm. destruct (Hl m (or_intror Hm)) as [H1 H2]. split.
    + rewrite body_dirs. assumption.
    + apply (parent_dirs (fs w)); [|assumption].
      intros q. apply body_dirs.
Qed.

(** A loop that raised stopped in the iteration that raised. *)
Lemma for_each_raised l w e :
  value (for_each l body w) = inl e ->
  exists l1 n l2,
    l = l1 ++ n :: l2 /\
    value (for_each l1 body w) = inr tt /\
    value (body n (final (for_each l1 body w))) = inl e /\
    final (for_each l body w) = final (body n (final (for_each l1 body w))) /\
    events (for_each l body w) =
      events (for_each l1 body w) ++
      events (body n (final (for_each l1 body w))).
Proof.
  revert w. induction l as [|n l IH]; intros w; [discriminate|].
  rewrite for_each_cons. destruct (value (body n w)) as [e'|[]] eqn:E.
  - rewrite (bind_raised _ _ _ _ E). triples.
    intros [= ->]. exists [], n, l. repeat split. assumption.
  - rewrite (bind_returned _ _ _ _ E). triples.
    intros H. destruct (IH _ H) as (l1 & m & l2 & -> & H1 & H2 & H3 & H4).
    exists (n :: l1), m, l2.
    rewrite for_each_cons, (bind_returned _ _ _ _ E). triples.
    repeat split; try assumption.
    rewrite H4. rewrite app_assoc. reflexivity.
Qed.

(** A raising iteration stops the loop, whatever comes after it. *)
Lemma for_each_stops l1 n l2 w e :
  value (for_each l1 body w) = inr tt ->
  value (body n (final (for_each l1 body w))) = inl e ->
  value (for_each (l1 ++ n :: l2) body w) = inl e /\
  final (for_each (l1 ++ n :: l2) body w) =
    final (body n (final (for_each l1 body w))) /\
  events (for_each (l1 ++ n :: l2) body w) =
    events (for_each l1 body w) ++
    events (body n (final (for_each l1 body w))).
Proof.
  revert w. induction l1 as [|m l1 IH]; intros w.
  - intros _ H. cbn [app]. rewrite for_each_cons, (bind_raised _ _ _ _ H).
    triples. repeat split.
  - cbn [app]. rewrite !for_each_cons.
    destruct (value (body m w)) as [e'|[]] eqn:E.
    + rewrite (bind_raised _ _ _ _ E). triples. discriminate.
    + rewrite !(bind_returned _ _ _ _ E). triples. intros H1 H2.
      destruct (IH _ H1 H2) as (-> & -> & ->).
      rewrite app_assoc. repeat split.
Qed.

End Loop.

Lemma write_all_other image path l (t : gmap string node) q :
  ~ In q (map path l) -> write_all image path l t !! q = t !! q.
Proof.
  revert t. induction l as [|n l IH]; intros t Hq; [reflexivity|].
  cbn [write_all]. rewrite IH.
  - apply lookup_insert_ne. intros E. apply Hq. left. exact E.
  - intros H. apply Hq. right. exact H.
Qed.

Lemma write_all_in image path l (t : gmap string node) n :
  List.NoDup (map path l) -> In n l ->
  write_all image path l t !! path n = Some (File (Png (image n))).
Proof.
  revert t. induction l as [|m l IH]; intros t Hnd Hn; [destruct Hn|].
  cbn [write_all]. cbn [map] in Hnd. inversion Hnd as [|? ? Hm Hnd']; subst.
  destruct (decide (path n = path m)) as [E|E].
  - rewrite write_all_other by (rewrite E; exact Hm).
    rewrite E, lookup_insert_eq.
    destruct Hn as [->|Hn]; [reflexivity|].
    exfalso. apply Hm. rewrite <- E. apply in_map. exact Hn.
  - destruct Hn as [->|Hn]; [congruence|]. apply IH; assumption.
Qed.

(** ** The whole script, for any such body *)

Section Script.

Variable body : string -> M unit.
Variable image : PIL.font -> string -> PIL.Image.
Variable path : string -> string.

Hypothesis body_save : forall n w,
  value (body n w) = value (save (image (default_font w) n) (path n) w) /\
  final (body n w) = final (save (image (default_font w) n) (path n) w) /\
  steps (events (body n w)) = iteration path n /\
  saved (events (body n w)) = [(path n, image (default_font w) n)].

Hypothesis paths_distinct : List.NoDup (map path CreateIcons.icons).

Hypothesis paths_parent : forall n,
  In n CreateIcons.icons -> (path_split (path n)).1 = "assets/product_icons".

Lemma script_eq w :
  script body w =
  match value (makedirs "assets/product_icons" true w) with
  | inl e =>
      (inl e, final (makedirs "assets/product_icons" true w),
       [EvMakedirs "assets/product_icons" true])
  | inr _ =>
      let o := for_each CreateIcons.icons body
                 (final (makedirs "assets/product_icons" true w)) in
      match value o with
      | inl e =>
          (inl e, final o, EvMakedirs "assets/product_icons" true :: events o)
      | inr _ =>
          (inr tt, final o,
           EvMakedirs "assets/product_icons" true :: events o ++
           [EvPrint "All product icons created successfully!"])
      end
  end.
Proof.
  unfold script. cbv zeta.
  destruct (value (makedirs "assets/product_icons" true w)) as [e|[]] eqn:E1.
  - rewrite (bind_raised _ _ _ _ E1), makedirs_events. reflexivity.
  - rewrite (bind_returned _ _ _ _ E1), makedirs_events.
    destruct (value (for_each CreateIcons.icons body
                       (final (makedirs "assets/product_icons" true w))))
      as [e|[]] eqn:E2.
    + rewrite (bind_raised _ _ _ _ E2). triples. reflexivity.
    + rewrite (bind_returned _ _ _ _ E2). triples. reflexivity.
Qed.

(** A run that returned: the four files, their content, nothing else. *)
Lemma script_returned w :
  value (script body w) = inr tt ->
  let w1 := final (makedirs "assets/product_icons" true w) in
  saved (events (script body w)) =
    map (fun n => (path n, image (default_font w) n)) CreateIcons.icons /\
  steps (events (script body w)) =
    StepMakedirs "assets/product_icons" ::
    flat_map (iteration path) CreateIcons.icons /\
  fs (final (script body w)) =
    write_all (image (default_font w)) path CreateIcons.icons (fs w1) /\
  fs (final (script body w)) !! "assets/product_icons" = Some Dir /\
  grows (fs w) (fs w1).
Proof.
  rewrite script_eq. cbv zeta.
  destruct (value (makedirs "assets/product_icons" true w)) as [e|[]] eqn:E1;
    [discriminate|].
  destruct (value (for_each CreateIcons.icons body
                     (final (makedirs "assets/product_icons" true w))))
    as [e|[]] eqn:E2; [discriminate|].
  intros _. triples.
  destruct (for_each_returned body image path body_save _ _ E2)
    as (Hfs & Hst & Hsv).
  destruct (makedirs_facts w) as (Hfont & _ & Hg & Hd). cbv zeta in *.
  rewrite Hfont in Hfs, Hsv.
  repeat split; try assumption.
  - change (saved (EvMakedirs "assets/product_icons" true :: ?t)) with (saved t).
    rewrite saved_app, Hsv. exact (app_nil_r _).
  - change (steps (EvMakedirs "assets/product_icons" true :: ?t))
      with (StepMakedirs "assets/product_icons" :: steps t).
    rewrite steps_app, Hst. f_equal; exact (app_nil_r _).
  - rewrite (for_each_dirs body image path body_save). apply Hd. assumption.
Qed.

(** Files of a run that returned. *)
Lemma script_files w :
  value (script body w) = inr tt ->
  (forall n, In n CreateIcons.icons ->
     fs (final (script body w)) !! path n =
     Some (File (Png (image (default_font w) n)))) /\
  (forall q c, ~ In q (map path CreateIcons.icons) ->
     (fs (final (script body w)) !! q = Some (File c) <->
      fs w !! q = Some (File c))).
Proof.
  intros H. destruct (script_returned w H) as (_ & _ & Hfs & _ & Hg).
  cbv zeta in *. rewrite Hfs. split.
  - intros n Hn. apply write_all_in; assumption.
  - intros q c Hq. rewrite write_all_other by assumption.
    apply grows_file. assumption.
Qed.


(** The steps of any run: the directory, then whole iterations in list
    order, as many as were started; none is started unless the directory
    is there. *)
Lemma script_steps w :
  exists k,
    (k <= length CreateIcons.icons)%nat /\
    steps (events (script body w)) =
      StepMakedirs "assets/product_icons" ::
      flat_map (iteration path) (take k CreateIcons.icons) /\
    (value (script body w) = inr tt -> k = length CreateIcons.icons) /\
    (k <> 0%nat ->
     value (makedirs "assets/product_icons" true w) = inr tt /\
     fs (final (makedirs "assets/product_icons" true w))
       !! "assets/product_icons" = Some Dir).
Proof.
  rewrite script_eq. cbv zeta.
  destruct (makedirs_facts w) as (_ & _ & _ & Hd). cbv zeta in Hd.
  destruct (value (makedirs "assets/product_icons" true w)) as [e|[]] eqn:E1.
  - exists 0%nat. triples.
    split; [cbn; lia|]. split; [reflexivity|]. split; [discriminate|].
    intros H. destruct H. reflexivity.
  - destruct (value (for_each CreateIcons.icons body
                       (final (makedirs "assets/product_icons" true w))))
      as [e|[]] eqn:E2.
    + destruct (for_each_raised body _ _ _ E2)
        as (l1 & n & l2 & El & R1 & R2 & _ & Hev).
      destruct (for_each_returned body image path body_save _ _ R1)
        as (_ & Hst & _).
      destruct (body_save n
        (final (for_each l1 body
                  (final (makedirs "assets/product_icons" true w)))))
        as (_ & _ & Bst & _).
      exists (S (length l1)). triples. rewrite Hev.
      split; [|split; [|split]].
      * rewrite El, length_app. cbn. lia.
      * change (steps (EvMakedirs "assets/product_icons" true :: ?t))
          with (StepMakedirs "assets/product_icons" :: steps t).
        rewrite steps_app, Hst, Bst. f_equal.
        rewrite El.
        replace (l1 ++ n :: l2) with ((l1 ++ [n]) ++ l2)
          by (rewrite <- app_assoc; reflexivity).
        rewrite take_app_length' by (rewrite length_app; cbn; lia).
        rewrite flat_map_app. cbn. rewrite ?app_nil_r. reflexivity.
      * discriminate.
      * intros _. split; [reflexivity | apply Hd; reflexivity].
    + destruct (for_each_returned body image path body_save _ _ E2)
        as (_ & Hst & _).
      exists (length CreateIcons.icons). triples.
      split; [lia|]. split; [|split; [auto|]].
      * change (steps (EvMakedirs "assets/product_icons" true :: ?t))
          with (StepMakedirs "assets/product_icons" :: steps t).
        rewrite steps_app, Hst, firstn_all. f_equal; exact (app_nil_r _).
      * intros _. split; [reflexivity | apply Hd; reflexivity].
Qed.

(** A run that raised: where it stopped, with which error, and what it
    left of the files written before. *)
Lemma script_raised w e :
  value (script body w) = inl e ->
  (value (makedirs "assets/product_icons" true w) = inl e /\
   final (script body w) = final (makedirs "assets/product_icons" true w) /\
   steps (events (script body w)) = [StepMakedirs "assets/product_icons"])
  \/
  (exists l1 n l2,
     CreateIcons.icons = l1 ++ n :: l2 /\
     value (makedirs "assets/product_icons" true w) = inr tt /\
     let w1 := final (for_each l1 body
                        (final (makedirs "assets/product_icons" true w))) in
     value (for_each l1 body
              (final (makedirs "assets/product_icons" true w))) = inr tt /\
     value (save (image (default_font w) n) (path n) w1) = inl e /\
     final (script body w) =
       final (save (image (default_font w) n) (path n) w1) /\
     steps (events (script body w)) =
       StepMakedirs "assets/product_icons" ::
       flat_map (iteration path) (l1 ++ [n]) /\
     forall m, In m l1 ->
       fs (final (script body w)) !! path m =
       Some (File (Png (image (default_font w) m)))).
Proof.
  rewrite script_eq. cbv zeta.
  destruct (value (makedirs "assets/product_icons" true w)) as [e1|[]] eqn:E1.
  - triples. intros [= ->]. left. repeat split.
  - destruct (value (for_each CreateIcons.icons body
                       (final (makedirs "assets/product_icons" true w))))
      as [e2|[]] eqn:E2; triples; [|discriminate].
    intros [= ->]. right.
    destruct (for_each_raised body _ _ _ E2)
      as (l1 & n & l2 & El & R1 & R2 & Hfin & Hev).
    destruct (for_each_returned body image path body_save _ _ R1)
      as (Hfs & Hst & _).
    destruct (makedirs_facts w) as (Hfont & _). cbv zeta in Hfont.
    set (w1 := final (for_each l1 body
                        (final (makedirs "assets/product_icons" true w)))) in *.
    assert (Hf1 : default_font w1 = default_font w).
    { unfold w1. rewrite (for_each_font body image path body_save). exact Hfont. }
    destruct (body_save n w1) as (Bv & Bf & Bst & _).
    rewrite Hf1 in Bv, Bf. rewrite Hfont in Hfs.
    exists l1, n, l2. split; [exact El|]. split; [reflexivity|].
    cbv zeta. fold w1. split; [exact R1|]. split; [|split; [|split]].
    + rewrite <- Bv. exact R2.
    + rewrite Hfin, Bf. reflexivity.
    + rewrite Hev.
      change (steps (EvMakedirs "assets/product_icons" true :: ?t))
        with (StepMakedirs "assets/product_icons" :: steps t).
      rewrite steps_app, Hst, Bst, flat_map_app. cbn. rewrite ?app_nil_r.
      reflexivity.
    + intros m Hm. rewrite Hfin, Bf.
      assert (Hnd : List.NoDup (map path l1 ++ path n :: map path l2)).
      { pose proof paths_distinct as P. rewrite El, map_app in P. exact P. }
      rewrite save_other.
      * rewrite Hfs. apply write_all_in; [|assumption].
        apply NoDup_app_remove_r in Hnd. exact Hnd.
      * intros Epath. apply NoDup_remove_2 in Hnd. apply Hnd.
        apply in_or_app. left. rewrite <- Epath. apply in_map. exact Hm.
Qed.

(** The other way round: a call that raises ends the run there. *)
Lemma script_stops_at_makedirs w e :
  value (makedirs "assets/product_icons" true w) = inl e ->
  value (script body w) = inl e /\
  final (script body w) = final (makedirs "assets/product_icons" true w) /\
  steps (events (script body w)) = [StepMakedirs "assets/product_icons"].
Proof.
  intros H. rewrite script_eq, H. triples. repeat split.
Qed.

Lemma script_stops_at_save w e l1 n l2 :
  CreateIcons.icons = l1 ++ n :: l2 ->
  value (makedirs "assets/product_icons" true w) = inr tt ->
  value (for_each l1 body
           (final (makedirs "assets/product_icons" true w))) = inr tt ->
  value (save (image (default_font w) n) (path n)
           (final (for_each l1 body
                     (final (makedirs "assets/product_icons" true w)))))
    = inl e ->
  value (script body w) = inl e /\
  final (script body w) =
    final (save (image (default_font w) n) (path n)
             (final (for_each l1 body
                       (final (makedirs "assets/product_icons" true w))))) /\
  steps (events (script body w)) =
    StepMakedirs "assets/product_icons" ::
    flat_map (iteration path) (l1 ++ [n]) /\
  (forall m, In m l1 ->
     fs (final (script body w)) !! path m =
     Some (File (Png (image (default_font w) m)))).
Proof.
  intros El E1 R1 Hsave.
  destruct (makedirs_facts w) as (Hfont & _). cbv zeta in Hfont.
  set (w1 := final (for_each l1 body
                      (final (makedirs "assets/product_icons" true w)))) in *.
  assert (Hf1 : default_font w1 = default_font w).
  { unfold w1. rewrite (for_each_font body image path body_save). exact Hfont. }
  destruct (body_save n w1) as (Bv & Bf & _). rewrite Hf1 in Bv, Bf.
  assert (R2 : value (body n w1) = inl e) by (rewrite Bv; exact Hsave).
  destruct (for_each_stops body l1 n l2 _ e R1 R2) as (Hv & _).
  rewrite <- El in Hv.
  assert (H : value (script body w) = inl e).
  { rewrite script_eq, E1. cbv zeta. rewrite Hv. reflexivity. }
  split; [exact H|].
  destruct (script_raised w e H) as [(Hm & _)|
    (l1' & n' & l2' & El' & _ & R1' & Hs' & Hfin' & Hst' & Hfiles')];
    [congruence|]. cbv zeta in *.
  (* the decomposition found by [script_raised] is the given one: both
     stop at the first iteration that raises *)
  assert (Hsame : l1' = l1 /\ n' = n).
  { apply (f_equal (fun t => List.filter
             (fun s => match s with StepSave _ => true | _ => false end) t))
      in Hst'.
    destruct (for_each_stops body l1 n l2 _ e R1 R2) as (_ & _ & Hev).
    rewrite <- El in Hev.
    assert (Hst : steps (events (script body w)) =
      StepMakedirs "assets/product_icons" ::
      flat_map (iteration path) (l1 ++ [n])).
    { rewrite script_eq, E1. cbv zeta. rewrite Hv. triples. rewrite Hev.
      change (steps (EvMakedirs "assets/product_icons" true :: ?t))
        with (StepMakedirs "assets/product_icons" :: steps t).
      destruct (for_each_returned body image path body_save _ _ R1)
        as (_ & Hst1 & _).
      destruct (body_save n w1) as (_ & _ & Bst & _).
      rewrite steps_app, Hst1. fold w1. rewrite Bst, flat_map_app. cbn.
      rewrite ?app_nil_r. reflexivity. }
    rewrite Hst in Hst'.
    assert (Hlen : length (l1 ++ [n]) = length (l1' ++ [n'])).
    { assert (Hl : forall l, length (List.filter
                 (fun s => match s with StepSave _ => true | _ => false end)
                 (StepMakedirs "assets/product_icons" ::
                  flat_map (iteration path) l)) = length l).
      { intros l. cbn [List.filter]. induction l as [|a l IHl]; [reflexivity|].
        cbn. rewrite IHl. reflexivity. }
      rewrite <- (Hl (l1 ++ [n])), <- (Hl (l1' ++ [n'])), Hst'. reflexivity. }
    rewrite !length_app in Hlen. cbn in Hlen.
    assert (Hl1 : length l1 = length l1') by lia.
    rewrite El in El'. apply app_inj_1 in El' as [-> Et]; [|exact Hl1].
    injection Et as -> _. split; reflexivity. }
  destruct Hsame as [-> ->]. fold w1 in Hfin', Hfiles'.
  repeat split; assumption.
Qed.

End Script.

(** ** The two bodies are such bodies *)

Lemma rectangle_size im xy fill outline width :
  PIL.im_size (PIL.rectangle im xy fill outline width) = PIL.im_size im.
Proof.
  unfold PIL.rectangle, PIL.getinks.
  destruct outline as [c|], fill as [f|]; cbn;
    repeat match goal with
           | |- context [if ?b then _ else _] => destruct b
           end; reflexivity.
Qed.

Lemma icon_image_size f n : PIL.im_size (icon_image f n) = (256, 256).
Proof.
  unfold icon_image, PIL.text. cbn [PIL.im_size].
  rewrite rectangle_size. reflexivity.
Qed.

Lemma product_icon_image_size : PIL.im_size product_icon_image = (256, 256).
Proof. reflexivity. Qed.

Lemma image_size v f n : PIL.im_size (image v f n) = (256, 256).
Proof. destruct v; [apply icon_image_size | apply product_icon_image_size]. Qed.

(** The body of variant A, with its [save] singled out. *)
Lemma create_icons_body_eq n w :
  let o := save (icon_image (default_font w) n) (CreateIcons.path n) w in
  CreateIcons.body n w =
  (value o, final o,
   [EvNew PIL.RGBA (256, 256) (PIL.Color4 0 0 0 0);
    EvRectangle (20, 20, 236, 236) (Some (CreateIcons.color n))
      (Some (PIL.Color3 255 255 255)) 5;
    EvText (CreateIcons.text_x (CreateIcons.text_width (CreateIcons.display_name n)),
            CreateIcons.text_y)
      (CreateIcons.display_name n) CreateIcons.text_color;
    EvSave (icon_image (default_font w) n) (CreateIcons.path n)] ++
   match value o with
   | inr _ => [EvPrint ("Created " +:+ CreateIcons.path n)]
   | inl _ => []
   end).
Proof.
  cbv zeta. pose proof (save_events (icon_image (default_font w) n)
                          (CreateIcons.path n) w) as Hev.
  unfold CreateIcons.body, Image_new, draw_rectangle, draw_text, print,
    bind, log, ret, get_font, value, final, events in *.
  fold (icon_image (default_font w) n).
  destruct (save (icon_image (default_font w) n) (CreateIcons.path n) w)
    as [[[e|[]] w'] t]; cbn in Hev |- *; rewrite Hev; reflexivity.
Qed.

(** The body of variant B, with its [save] singled out. *)
Lemma create_product_icons_body_eq n w :
  let o := save product_icon_image (CreateProductIcons.product_icon_path n) w in
  CreateProductIcons.body n w =
  (value o, final o,
   [EvPrint ("Creating " +:+ n);
    EvNew PIL.RGB (256, 256) (PIL.Color3 100 150 200);
    EvRectangle (50, 50, 206, 206) (Some (PIL.Color3 70 90 150))
      (Some (PIL.Color3 255 255 255)) 3;
    EvSave product_icon_image (CreateProductIcons.product_icon_path n)] ++
   match value o with
   | inr _ => [EvPrint ("Saved " +:+ CreateProductIcons.product_icon_path n)]
   | inl _ => []
   end).
Proof.
  cbv zeta. pose proof (save_events product_icon_image
                          (CreateProductIcons.product_icon_path n) w) as Hev.
  unfold CreateProductIcons.body, Image_new, draw_rectangle, print,
    bind, log, ret, value, final, events in *.
  fold product_icon_image.
  destruct (save product_icon_image (CreateProductIcons.product_icon_path n) w)
    as [[[e|[]] w'] t]; cbn in Hev |- *; rewrite Hev; reflexivity.
Qed.

Lemma body_eq v n w :
  exists pre post,
    body v n w =
    (value (save (image v (default_font w) n) (path v n) w),
     final (save (image v (default_font w) n) (path v n) w),
     pre ++ EvSave (image v (default_font w) n) (path v n) :: post) /\
    steps pre = [StepNew] /\ steps post = [] /\
    saved pre = [] /\ saved post = [].
Proof.
  destruct v; cbn [body image path].
  - rewrite create_icons_body_eq. cbv zeta.
    eexists [_; _; _], _. split; [reflexivity|].
    destruct (value (save _ _ w)); repeat split.
  - rewrite create_product_icons_body_eq. cbv zeta.
    eexists [_; _; _], _. split; [reflexivity|].
    destruct (value (save _ _ w)); repeat split.
Qed.

Lemma body_save v n w :
  value (body v n w) = value (save (image v (default_font w) n) (path v n) w) /\
  final (body v n w) = final (save (image v (default_font w) n) (path v n) w) /\
  steps (events (body v n w)) = iteration (path v) n /\
  saved (events (body v n w)) = [(path v n, image v (default_font w) n)].
Proof.
  destruct (body_eq v n w) as (pre & post & -> & Hs1 & Hs2 & Hv1 & Hv2).
  triples. repeat split.
  - change (pre ++ ?e :: post) with (pre ++ [e] ++ post).
    rewrite !steps_app, Hs1, Hs2. reflexivity.
  - change (pre ++ ?e :: post) with (pre ++ [e] ++ post).
    rewrite !saved_app, Hv1, Hv2. reflexivity.
Qed.

Lemma paths_expected v : map (path v) CreateIcons.icons = expected_paths.
Proof. destruct v; reflexivity. Qed.

Lemma expected_paths_distinct : List.NoDup expected_paths.
Proof.
  apply NoDup_ListNoDup. apply (bool_decide_unpack _). vm_compute. exact I.
Qed.

Lemma paths_distinct v : List.NoDup (map (path v) CreateIcons.icons).
Proof. rewrite paths_expected. apply expected_paths_distinct. Qed.

Lemma paths_parent v n :
  In n CreateIcons.icons -> (path_split (path v n)).1 = "assets/product_icons".
Proof.
  intros Hn. destruct v; cbn in Hn;
    repeat (destruct Hn as [<-|Hn]; [reflexivity|]); destruct Hn.
Qed.

Lemma main_script v : main v = script (body v).
Proof. destruct v; reflexivity. Qed.

(** ** Pixels *)

Lemma blend_zero v ink : 0 <= v <= 255 -> PIL.blend 0 v ink = v.
Proof.
  intros Hv. unfold PIL.blend, PIL.div255. cbv zeta.
  rewrite !Z.shiftr_div_pow2 by lia. change (2 ^ 8) with 256.
  replace (v * (255 - 0) + ink * 0 + 128) with (255 * v + 128) by lia.
  assert (H1 : (255 * v + 128) / 256 = if v <=? 128 then v else v - 1).
  { destruct (v <=? 128) eqn:E; [apply Z.leb_le in E | apply Z.leb_gt in E];
      symmetry; apply (Z.div_unique _ 256 _ (if v <=? 128 then 128 - v else 384 - v));
      [ left; destruct (v <=? 128) eqn:E'; lia
      | destruct (v <=? 128) eqn:E'; [lia | apply Z.leb_gt in E'; lia]
      | left; destruct (v <=? 128) eqn:E'; lia
      | destruct (v <=? 128) eqn:E'; [apply Z.leb_le in E'; lia | lia] ]. }
  rewrite H1. symmetry.
  destruct (v <=? 128) eqn:E; [apply Z.leb_le in E | apply Z.leb_gt in E].
  - apply (Z.div_unique _ 256 _ 128); lia.
  - apply (Z.div_unique _ 256 _ 127); lia.
Qed.

Lemma blend_full v ink : 0 <= ink <= 255 -> PIL.blend 255 v ink = ink.
Proof.
  intros Hv. unfold PIL.blend.
  replace (v * (255 - 255) + ink * 255) with (ink * (255 - 0) + v * 0) by lia.
  apply (blend_zero ink v Hv).
Qed.

(** What [rectangle] leaves in the raster. *)
Lemma rectangle_data im xy fill outline width x y :
  PIL.im_data (PIL.rectangle im xy (Some fill) (Some outline) width) x y =
  if negb (PIL.pixel_eqb (PIL.getink outline) (PIL.getink fill)) &&
     negb (width =? 0) && PIL.on_outline xy width x y
  then PIL.getink outline
  else if PIL.in_box xy x y then PIL.getink fill else PIL.im_data im x y.
Proof.
  unfold PIL.rectangle, PIL.getinks. cbn [option_map].
  destruct (negb (PIL.pixel_eqb (PIL.getink outline) (PIL.getink fill)) &&
            negb (width =? 0)); cbn; reflexivity.
Qed.

Lemma rectangle_mode im xy fill outline width :
  PIL.im_mode (PIL.rectangle im xy fill outline width) = PIL.im_mode im.
Proof.
  unfold PIL.rectangle, PIL.getinks.
  destruct outline as [c|], fill as [f|]; cbn;
    repeat match goal with
           | |- context [if ?b then _ else _] => destruct b
           end; reflexivity.
Qed.

(** Where the label does not reach, [text] leaves the raster as it was. *)
Lemma text_data_uncovered f im x0 y0 s fill x y :
  PIL.clip8 (f s (x - x0) (y - y0)) = 0 ->
  (let p := PIL.im_data im x y in
   0 <= PIL.red p <= 255 /\ 0 <= PIL.green p <= 255 /\
   0 <= PIL.blue p <= 255 /\ 0 <= PIL.alpha p <= 255) ->
  PIL.im_data (PIL.text f im (x0, y0) s fill) x y = PIL.im_data im x y.
Proof.
  intros Hm (Hr & Hg & Hb & Ha). cbn. rewrite Hm. unfold PIL.blend_pixel.
  rewrite !blend_zero by assumption. destruct (PIL.im_data im x y). reflexivity.
Qed.

(** The centre of the canvas, in variant A, after the rectangle. *)
Lemma icon_center_before_label n :
  In n CreateIcons.icons ->
  exists r g b,
    CreateIcons.colors !! n = Some (PIL.Color3 r g b) /\
    PIL.im_data
      (PIL.rectangle (PIL.new PIL.RGBA (256, 256) (PIL.Color4 0 0 0 0))
         (20, 20, 236, 236) (Some (CreateIcons.color n))
         (Some (PIL.Color3 255 255 255)) 5) 128 128 = PIL.Pixel r g b 255 /\
    0 <= r <= 255 /\ 0 <= g <= 255 /\ 0 <= b <= 255.
Proof.
  intros Hn. cbn in Hn.
  repeat (destruct Hn as [<-|Hn];
          [eexists _, _, _; split; [reflexivity|]; split; [reflexivity|]; lia|]).
  destruct Hn.
Qed.

Lemma save_event_of_create_icons n w im p :
  In (EvSave im p) (events (CreateIcons.body n w)) ->
  im = icon_image (default_font w) n /\ p = CreateIcons.path n.
Proof.
  rewrite create_icons_body_eq. cbv zeta. triples. intros H.
  apply in_app_or in H as [H|H].
  - cbn in H. destruct H as [H|[H|[H|[H|[]]]]]; try discriminate.
    injection H as <- <-. split; reflexivity.
  - destruct (value (save _ _ w)); cbn in H; [destruct H|].
    destruct H as [H|[]]. discriminate.
Qed.

Lemma save_event_of_create_product_icons n w im p :
  In (EvSave im p) (events (CreateProductIcons.body n w)) ->
  im = product_icon_image /\ p = CreateProductIcons.product_icon_path n.
Proof.
  rewrite create_product_icons_body_eq. cbv zeta. triples. intros H.
  apply in_app_or in H as [H|H].
  - cbn in H. destruct H as [H|[H|[H|[H|[]]]]]; try discriminate.
    injection H as <- <-. split; reflexivity.
  - destruct (value (save _ _ w)); cbn in H; [destruct H|].
    destruct H as [H|[]]. discriminate.
Qed.

(** ** The specification, statement by statement *)

(** C1, as amended.  In variant A every name of the fixed list has a
    configured colour, and the image handed to [save] has exactly that
    colour, opaque, at the centre (128,128) -- provided the default font
    leaves the centre uncovered: the label is drawn after the rectangle,
    from [(text_x, 118)] on.  In variant B the centre has the fixed fill
    (70,90,150) whatever the name. *)
Theorem center_pixel (w : world) (name : string) (im : PIL.Image) (p : string) :
  (In name CreateIcons.icons ->
   In (EvSave im p) (events (CreateIcons.body name w)) ->
   PIL.clip8
     (default_font w (CreateIcons.display_name name)
        (128 - CreateIcons.text_x
                 (CreateIcons.text_width (CreateIcons.display_name name)))
        (128 - CreateIcons.text_y)) = 0 ->
   exists r g b,
     CreateIcons.colors !! name = Some (PIL.Color3 r g b) /\
     PIL.getpixel im (128, 128) = Some (PIL.Color4 r g b 255))
  /\
  (In (EvSave im p) (events (CreateProductIcons.body name w)) ->
   PIL.getpixel im (128, 128) = Some (PIL.Color3 70 90 150)).
Proof.
  split.
  - intros Hn Hev Hmask.
    apply save_event_of_create_icons in Hev as [-> _].
    destruct (icon_center_before_label name Hn)
      as (r & g & b & Hc & Hd & Hr & Hg & Hb).
    exists r, g, b. split; [exact Hc|].
    unfold PIL.getpixel. rewrite icon_image_size.
    change ((0 <=? 128) && (128 <? 256) && (0 <=? 128) && (128 <? 256))
      with true. cbv iota.
    unfold icon_image at 1. unfold PIL.text at 1. cbn [PIL.im_mode].
    rewrite rectangle_mode. cbn [PIL.im_mode PIL.new].
    unfold icon_image. rewrite text_data_uncovered.
    + rewrite Hd. reflexivity.
    + exact Hmask.
    + rewrite Hd. cbn. lia.
  - intros Hev. apply save_event_of_create_product_icons in Hev as [-> _].
    reflexivity.
Qed.

(** The end-to-end scenario of the specification, in variant A, with a
    font whose glyphs are 8 pixels high. *)
Lemma center_pixel_witness :
  PIL.getpixel (icon_image (block_font 6 8) "cool_shades_icon") (128, 128) =
    Some (PIL.Color4 50 50 50 255) /\
  PIL.getpixel product_icon_image (128, 128) = Some (PIL.Color3 70 90 150).
Proof.
  pose proof (center_pixel (fresh_world (block_font 6 8)) "cool_shades_icon"
                (icon_image (block_font 6 8) "cool_shades_icon")
                (CreateIcons.path "cool_shades_icon")) as [HA _].
  pose proof (center_pixel (fresh_world (block_font 6 8)) "cool_shades_icon"
                product_icon_image
                (CreateProductIcons.product_icon_path "cool_shades_icon"))
    as [_ HB].
  split.
  - destruct HA as (r & g & b & Hc & Hp).
    + cbn. auto.
    + rewrite create_icons_body_eq. cbv zeta. triples.
      apply in_or_app. left. cbn. auto.
    + vm_compute. reflexivity.
    + vm_compute in Hc. injection Hc as <- <- <-. exact Hp.
  - apply HB. rewrite create_product_icons_body_eq. cbv zeta. triples.
    apply in_or_app. left. cbn. auto.
Defined.

(** C1 as stated fails in variant B: the icon of ["cool_shades_icon"],
    whose configured colour is (50,50,50), has (70,90,150) at its centre. *)
Lemma center_pixel_counterexample :
  CreateIcons.colors !! "cool_shades_icon" = Some (PIL.Color3 50 50 50) /\
  pixel_of_file
    (fs (final (CreateProductIcons.main (fresh_world (block_font 6 8)))))
    "assets/product_icons/cool_shades_icon.png" (128, 128) =
    Some (PIL.Color3 70 90 150) /\
  pixel_of_file
    (fs (final (CreateProductIcons.main (fresh_world (block_font 6 8)))))
    "assets/product_icons/cool_shades_icon.png" (128, 128) <>
    Some (PIL.Color3 50 50 50).
Proof.
  split; [reflexivity|].
  assert (E : pixel_of_file
    (fs (final (CreateProductIcons.main (fresh_world (block_font 6 8)))))
    "assets/product_icons/cool_shades_icon.png" (128, 128) =
    Some (PIL.Color3 70 90 150)) by (vm_compute; reflexivity).
  split; [exact E|]. rewrite E. discriminate.
Qed.

(** In variant A the label can reach the centre: with glyphs 11 pixels
    high the centre of ["cool_shades_icon"] is white, not (50,50,50). *)
Example label_can_cover_center :
  pixel_of_file
    (fs (final (CreateIcons.main (fresh_world (block_font 6 11)))))
    "assets/product_icons/cool_shades_icon.png" (128, 128) =
  Some (PIL.Color4 255 255 255 255).
Proof. vm_compute. reflexivity. Qed.

Lemma upcase_is_to_upper c : upcase c = Py.to_upper c.
Proof. destruct c as [[] [] [] [] [] [] [] []]; reflexivity. Qed.

Lemma downcase_is_to_lower c : downcase c = Py.to_lower c.
Proof. destruct c as [[] [] [] [] [] [] [] []]; reflexivity. Qed.

Lemma replace_is_underscores_to_spaces s :
  Py.replace s "_" " " = underscores_to_spaces s.
Proof.
  unfold Py.replace. induction s as [|c s IH]; [reflexivity|].
  cbn [Py.replace_from Py.startswith String.length underscores_to_spaces].
  rewrite andb_true_r.
  destruct (Ascii.eqb_spec "_" c) as [<-|Hc].
  - change (" " +:+ ?t) with (String " " t). rewrite IH. reflexivity.
  - destruct (Ascii.eqb_spec c "_") as [->|_]; [congruence|].
    rewrite IH. reflexivity.
Qed.

(** On a string of letters and spaces, [title] capitalises the pieces
    between spaces. *)
Lemma title_from_by_words s :
  (forall b, plain_name s = true -> Py.contains "_" s = false ->
   exists w ws,
     split_words s = w :: ws /\
     Py.title_from b s =
       (if b then downcase_all w else capitalize w) +:+
       spaced (map capitalize ws)).
Proof.
  induction s as [|c s IH]; intros b Hp Hu.
  - exists EmptyString, []. split; [reflexivity|]. destruct b; reflexivity.
  - cbn [plain_name] in Hp. apply andb_prop in Hp as [Hc Hp].
    cbn [Py.contains Py.startswith] in Hu.
    apply orb_false_elim in Hu as [Hcu Hu]. rewrite andb_true_r in Hcu.
    cbn [split_words Py.title_from].
    destruct (Ascii.eqb_spec c " ") as [->|Hsp].
    + destruct (IH false Hp Hu) as (w & ws & Hs & Ht).
      exists EmptyString, (w :: ws). rewrite Hs. split; [reflexivity|].
      change (Py.is_cased " ") with false. rewrite Ht.
      destruct b; reflexivity.
    + assert (Hcased : Py.is_cased c = true).
      { destruct (Py.is_cased c); [reflexivity|]. cbn in Hc.
        destruct (Ascii.eqb_spec c "_") as [->|_]; [discriminate Hcu|].
        discriminate Hc. }
      rewrite Hcased. destruct (IH true Hp Hu) as (w & ws & Hs & Ht).
      exists (String c w), ws. rewrite Hs. split; [reflexivity|].
      rewrite Ht. rewrite <- upcase_is_to_upper, <- downcase_is_to_lower.
      destruct b; reflexivity.
Qed.

Lemma plain_name_app t u :
  plain_name (t +:+ u) = plain_name t && plain_name u.
Proof.
  induction t as [|c t IH]; [reflexivity|].
  change (String c t +:+ u) with (String c (t +:+ u)). cbn [plain_name].
  rewrite IH, andb_assoc. reflexivity.
Qed.

Lemma underscores_to_spaces_plain s :
  plain_name s = true ->
  plain_name (underscores_to_spaces s) = true /\
  Py.contains "_" (underscores_to_spaces s) = false.
Proof.
  induction s as [|c s IH]; intros Hp; [split; reflexivity|].
  cbn [plain_name] in Hp. apply andb_prop in Hp as [Hc Hp].
  destruct (IH Hp) as [IH1 IH2].
  cbn [underscores_to_spaces plain_name Py.contains Py.startswith].
  rewrite IH1, IH2, andb_true_r, orb_false_r.
  destruct (Ascii.eqb_spec c "_") as [->|Hn].
  - split; reflexivity.
  - destruct (Ascii.eqb_spec c "_") as [->|_]; [congruence|].
    rewrite Hc, andb_true_r. split; [reflexivity|].
    destruct (Ascii.eqb_spec "_" c) as [<-|_]; [congruence | reflexivity].
Qed.

(** C2.  For every icon name of the fixed list -- and for every name made
    of ASCII letters, underscores and spaces in which ["_icon"] occurs at
    most as the trailing suffix -- the label the script computes is the
    result of stripping the trailing ["_icon"], replacing underscores with
    spaces and title-casing each word. *)
Theorem display_name_is_spec_label (name : string) :
  In name CreateIcons.icons \/
  (plain_name name = true /\
   Py.contains "_icon" (Py.removesuffix name "_icon") = false) ->
  CreateIcons.display_name name = spec_label name.
Proof.
  intros [H|[Hp H]].
  - cbn in H. repeat (destruct H as [<-|H]; [reflexivity|]). destruct H.
  - unfold CreateIcons.display_name, spec_label, Py.title.
    assert (E : Py.replace name "_icon" "" = Py.removesuffix name "_icon").
    { destruct (removesuffix_cases name "_icon") as [(t & Hn & Hr)|Hr].
      - rewrite Hr in H |- *. rewrite Hn. apply replace_trailing_icon. exact H.
      - rewrite Hr in H |- *. apply replace_absent. exact H. }
    assert (Hpt : plain_name (Py.removesuffix name "_icon") = true).
    { destruct (removesuffix_cases name "_icon") as [(t & Hn & Hr)|Hr].
      - rewrite Hr. rewrite Hn, plain_name_app in Hp.
        apply andb_prop in Hp as [Hp _]. exact Hp.
      - rewrite Hr. exact Hp. }
    rewrite E, replace_is_underscores_to_spaces.
    destruct (underscores_to_spaces_plain _ Hpt) as [Hp' Hu'].
    destruct (title_from_by_words _ false Hp' Hu') as (w & ws & -> & ->).
    reflexivity.
Qed.

Lemma display_name_is_spec_label_witness :
  CreateIcons.display_name "hobo_cape_icon" = "Hobo Cape" /\
  CreateIcons.display_name "extra_life_icon" = "Extra Life" /\
  CreateIcons.display_name "Magic_hat rack_icon" = "Magic Hat Rack".
Proof.
  split; [|split].
  - rewrite (display_name_is_spec_label "hobo_cape_icon").
    + reflexivity.
    + left. cbn. auto.
  - rewrite (display_name_is_spec_label "extra_life_icon").
    + reflexivity.
    + left. cbn. auto.
  - rewrite (display_name_is_spec_label "Magic_hat rack_icon").
    + reflexivity.
    + right. split; reflexivity.
Defined.

(** The four labels, computed both ways. *)
Example labels_as_the_specification_words_them :
  map spec_label CreateIcons.icons =
    ["Hobo Cape"; "Cool Shades"; "Cardboard Armor"; "Extra Life"] /\
  map CreateIcons.display_name CreateIcons.icons =
    ["Hobo Cape"; "Cool Shades"; "Cardboard Armor"; "Extra Life"].
Proof. split; reflexivity. Qed.

(** C3, as amended.  Each iteration allocates one canvas of 256 by 256
    pixels and makes exactly one [rectangle] call on it.  The box has the
    corners (m,m) and (256-m,256-m), with a white outline: m = 20 and
    width 5 in variant A, m = 50 and width 3 in variant B.  The fill is
    the colour configured for the name in variant A (the default gray when
    there is none); in variant B it is the fixed colour (70,90,150) for
    every name. *)
Theorem one_rectangle_per_icon (w : world) (name : string) :
  canvases (events (CreateIcons.body name w)) =
    [EvNew PIL.RGBA (256, 256) (PIL.Color4 0 0 0 0)] /\
  rectangles (events (CreateIcons.body name w)) =
    [EvRectangle (20, 20, 256 - 20, 256 - 20)
       (Some (default (PIL.Color3 100 100 100) (CreateIcons.colors !! name)))
       (Some (PIL.Color3 255 255 255)) 5] /\
  canvases (events (CreateProductIcons.body name w)) =
    [EvNew PIL.RGB (256, 256) (PIL.Color3 100 150 200)] /\
  rectangles (events (CreateProductIcons.body name w)) =
    [EvRectangle (50, 50, 256 - 50, 256 - 50) (Some (PIL.Color3 70 90 150))
       (Some (PIL.Color3 255 255 255)) 3].
Proof.
  rewrite create_icons_body_eq, create_product_icons_body_eq. cbv zeta.
  triples.
  destruct (value (save _ (CreateIcons.path name) w));
    destruct (value (save _ (CreateProductIcons.product_icon_path name) w));
    repeat split.
Qed.

(** C3 as stated fails in variant B: the rectangle of
    ["cool_shades_icon"] is not filled with its configured (50,50,50). *)
Lemma one_rectangle_counterexample :
  CreateIcons.colors !! "cool_shades_icon" = Some (PIL.Color3 50 50 50) /\
  rectangles (events (CreateProductIcons.body "cool_shades_icon"
                        (fresh_world (block_font 6 8)))) =
    [EvRectangle (50, 50, 206, 206) (Some (PIL.Color3 70 90 150))
       (Some (PIL.Color3 255 255 255)) 3] /\
  rectangles (events (CreateProductIcons.body "cool_shades_icon"
                        (fresh_world (block_font 6 8)))) <>
    [EvRectangle (50, 50, 206, 206) (Some (PIL.Color3 50 50 50))
       (Some (PIL.Color3 255 255 255)) 3].
Proof.
  split; [reflexivity|].
  assert (E : rectangles (events (CreateProductIcons.body "cool_shades_icon"
                                    (fresh_world (block_font 6 8)))) =
    [EvRectangle (50, 50, 206, 206) (Some (PIL.Color3 70 90 150))
       (Some (PIL.Color3 255 255 255)) 3]) by (vm_compute; reflexivity).
  split; [exact E|]. rewrite E. discriminate.
Qed.

(** C5.  The label is drawn once, at [(text_x, 118)] with
    [text_x = (256 - 10 * len(label)) div 2], the division rounding
    down; no measure of the font enters the position. *)
Theorem label_position (w : world) (name : string) :
  let label := CreateIcons.display_name name in
  let text_width := Py.len label * 10 in
  let text_x := (256 - text_width) / 2 in
  texts (events (CreateIcons.body name w)) =
    [EvText (text_x, 118) label (PIL.Color3 255 255 255)] /\
  2 * text_x <= 256 - text_width < 2 * text_x + 2.
Proof.
  cbv zeta. split.
  - rewrite create_icons_body_eq. cbv zeta. triples.
    destruct (value (save _ (CreateIcons.path name) w)); reflexivity.
  - pose proof (Z.div_mod (256 - Py.len (CreateIcons.display_name name) * 10) 2)
      as Hd.
    pose proof (Z.mod_pos_bound
                  (256 - Py.len (CreateIcons.display_name name) * 10) 2) as Hm.
    lia.
Qed.

(** C9.  In variant A the rectangle of a name without an entry in the
    colour table is filled with the gray (100,100,100); every name of the
    fixed list has an entry, and its rectangle is filled with it. *)
Theorem fill_color_default (w : world) (name : string) :
  (CreateIcons.colors !! name = None ->
   rectangles (events (CreateIcons.body name w)) =
     [EvRectangle (20, 20, 236, 236) (Some (PIL.Color3 100 100 100))
        (Some (PIL.Color3 255 255 255)) 5]) /\
  (In name CreateIcons.icons ->
   exists c,
     CreateIcons.colors !! name = Some c /\
     rectangles (events (CreateIcons.body name w)) =
       [EvRectangle (20, 20, 236, 236) (Some c)
          (Some (PIL.Color3 255 255 255)) 5]).
Proof.
  assert (E : rectangles (events (CreateIcons.body name w)) =
    [EvRectangle (20, 20, 236, 236) (Some (CreateIcons.color name))
       (Some (PIL.Color3 255 255 255)) 5]).
  { rewrite create_icons_body_eq. cbv zeta. triples.
    destruct (value (save _ (CreateIcons.path name) w)); reflexivity. }
  rewrite E. unfold CreateIcons.color. split.
  - intros ->. reflexivity.
  - intros Hn. cbn in Hn.
    repeat (destruct Hn as [<-|Hn]; [eexists; split; reflexivity|]).
    destruct Hn.
Qed.

Lemma fill_color_default_witness :
  rectangles (events (CreateIcons.body "mystery_box_icon"
                        (fresh_world (block_font 6 8)))) =
    [EvRectangle (20, 20, 236, 236) (Some (PIL.Color3 100 100 100))
       (Some (PIL.Color3 255 255 255)) 5] /\
  exists c,
    CreateIcons.colors !! "extra_life_icon" = Some c /\
    rectangles (events (CreateIcons.body "extra_life_icon"
                          (fresh_world (block_font 6 8)))) =
      [EvRectangle (20, 20, 236, 236) (Some c)
         (Some (PIL.Color3 255 255 255)) 5].
Proof.
  split.
  - apply (fill_color_default (fresh_world (block_font 6 8)) "mystery_box_icon").
    vm_compute. reflexivity.
  - apply (fill_color_default (fresh_world (block_font 6 8)) "extra_life_icon").
    cbn. auto.
Defined.

Lemma string_length_app a b :
  String.length (a +:+ b) = (String.length a + String.length b)%nat.
Proof.
  induction a as [|c a IH]; [reflexivity|].
  change (String c a +:+ b) with (String c (a +:+ b)). cbn [String.length].
  rewrite IH. reflexivity.
Qed.

Lemma append_inj_r s1 s2 t : s1 +:+ t = s2 +:+ t -> s1 = s2.
Proof.
  revert s2. induction s1 as [|c s1 IH]; intros [|d s2] H.
  - reflexivity.
  - apply (f_equal String.length) in H.
    change (String.length t = S (String.length (s2 +:+ t))) in H.
    rewrite string_length_app in H. lia.
  - apply (f_equal String.length) in H.
    change (S (String.length (s1 +:+ t)) = String.length t) in H.
    rewrite string_length_app in H. lia.
  - change (String c (s1 +:+ t) = String d (s2 +:+ t)) in H.
    injection H as -> H. f_equal. apply IH. exact H.
Qed.

Lemma product_icon_path_inj n1 n2 :
  "assets/product_icons/" +:+ n1 +:+ ".png" =
  "assets/product_icons/" +:+ n2 +:+ ".png" -> n1 = n2.
Proof.
  intros H. apply String.app_inj in H. apply append_inj_r in H. exact H.
Qed.

(** C10.  In variant B the image handed to [save] is the same for any two
    names (and any two environments): mode RGB, 256 by 256, the blue
    (100,150,200) outside the box 50..206, white on the 3 outermost rows
    and columns of the box, (70,90,150) inside.  Only the path, which
    determines the name, differs. *)
Theorem product_icon_independent_of_name (w1 w2 : world) (n1 n2 : string) :
  map snd (saved (events (CreateProductIcons.body n1 w1))) =
  map snd (saved (events (CreateProductIcons.body n2 w2))) /\
  saved (events (CreateProductIcons.body n1 w1)) =
    [("assets/product_icons/" +:+ n1 +:+ ".png", product_icon_image)] /\
  PIL.im_mode product_icon_image = PIL.RGB /\
  PIL.im_size product_icon_image = (256, 256) /\
  (forall x y,
     PIL.im_data product_icon_image x y =
     if PIL.in_box (50, 50, 206, 206) x y
     then if PIL.on_outline (50, 50, 206, 206) 3 x y
          then PIL.Pixel 255 255 255 255
          else PIL.Pixel 70 90 150 255
     else PIL.Pixel 100 150 200 255) /\
  (n1 <> n2 ->
   "assets/product_icons/" +:+ n1 +:+ ".png" <>
   "assets/product_icons/" +:+ n2 +:+ ".png").
Proof.
  assert (E : forall n w, saved (events (CreateProductIcons.body n w)) =
    [("assets/product_icons/" +:+ n +:+ ".png", product_icon_image)]).
  { intros n w. rewrite create_product_icons_body_eq. cbv zeta. triples.
    destruct (value (save _ (CreateProductIcons.product_icon_path n) w));
      reflexivity. }
  rewrite !E. repeat split.
  - intros x y. unfold product_icon_image. rewrite rectangle_data.
    change (negb (PIL.pixel_eqb (PIL.getink (PIL.Color3 255 255 255))
                    (PIL.getink (PIL.Color3 70 90 150))) && negb (3 =? 0))
      with true.
    cbn [andb]. unfold PIL.on_outline.
    destruct (PIL.in_box (50, 50, 206, 206) x y); reflexivity.
  - intros Hne Hp. apply Hne. apply product_icon_path_inj. exact Hp.
Qed.

Lemma product_icon_independent_of_name_witness :
  map snd (saved (events (CreateProductIcons.body "hobo_cape_icon"
                            (fresh_world (block_font 6 8))))) =
  map snd (saved (events (CreateProductIcons.body "cool_shades_icon"
                            (fresh_world (block_font 6 11))))) /\
  "assets/product_icons/hobo_cape_icon.png" <>
  "assets/product_icons/cool_shades_icon.png".
Proof.
  destruct (product_icon_independent_of_name
              (fresh_world (block_font 6 8)) (fresh_world (block_font 6 11))
              "hobo_cape_icon" "cool_shades_icon")
    as (H1 & _ & _ & _ & _ & H2).
  split; [exact H1|]. apply H2. discriminate.
Defined.

(** C4.  A run of either script that returns has handed exactly the four
    expected paths to [save], one per name; afterwards each of them holds
    a PNG of 256 by 256 pixels, and every other file of the tree is as it
    was. *)
Theorem complete_run_writes_four_icons (v : variant) (w : world) :
  value (main v w) = inr tt -> four_icons (fs w) (main v w).
Proof.
  rewrite main_script. intros H.
  destruct (script_returned _ _ _ (body_save v) w H) as (Hsv & _).
  destruct (script_files _ _ _ (body_save v) (paths_distinct v) w H)
    as (Hin & Hout).
  unfold four_icons. rewrite Hsv. split; [|split; [|split]].
  - rewrite map_map. cbn [fst]. apply paths_expected.
  - apply expected_paths_distinct.
  - intros p Hp. rewrite <- (paths_expected v) in Hp.
    apply in_map_iff in Hp as (n & <- & Hn).
    exists (image v (default_font w) n). split; [|split].
    + apply (in_map (fun n => (path v n, image v (default_font w) n))).
      exact Hn.
    + apply Hin. exact Hn.
    + apply image_size.
  - intros q c Hq. apply Hout. rewrite paths_expected. exact Hq.
Qed.

Lemma complete_run_writes_four_icons_witness :
  four_icons ∅ (main VariantA (fresh_world (block_font 6 8))) /\
  four_icons ∅ (main VariantB (fresh_world (block_font 6 8))).
Proof.
  split.
  - apply (complete_run_writes_four_icons VariantA (fresh_world (block_font 6 8))).
    vm_compute. reflexivity.
  - apply (complete_run_writes_four_icons VariantB (fresh_world (block_font 6 8))).
    vm_compute. reflexivity.
Defined.




Lemma steps_explicit v k :
  flat_map (iteration (path v)) (take k CreateIcons.icons) =
  flat_map (fun name =>
              [StepNew; StepSave ("assets/product_icons/" +:+ name +:+ ".png")])
           (take k CreateIcons.icons).
Proof.
  destruct v; do 4 (destruct k as [|k]; [reflexivity|]);
    destruct k; reflexivity.
Qed.

(** C7.  In any run of either script [makedirs] is called first and
    once; after it come whole iterations -- a canvas, then the write of
    that name's file -- for the names of the list in order, up to the
    iteration the run stopped in.  No iteration is started unless
    [makedirs] has returned and the directory is there; a run that returns
    has gone through all four. *)
Theorem run_order (v : variant) (w : world) :
  exists k,
    (k <= 4)%nat /\
    steps (events (main v w)) =
      StepMakedirs "assets/product_icons" ::
      flat_map (fun name =>
                  [StepNew;
                   StepSave ("assets/product_icons/" +:+ name +:+ ".png")])
               (take k CreateIcons.icons) /\
    (value (main v w) = inr tt -> k = 4%nat) /\
    (k <> 0%nat ->
     value (makedirs "assets/product_icons" true w) = inr tt /\
     fs (final (makedirs "assets/product_icons" true w))
       !! "assets/product_icons" = Some Dir).
Proof.
  rewrite main_script.
  destruct (script_steps _ _ _ (body_save v) w) as (k & Hk & Hst & Hret & Hdir).
  exists k. rewrite Hst, steps_explicit. repeat split; try assumption.
  - apply Hdir. assumption.
  - apply Hdir. assumption.
Qed.

(** A run of either script that raises [e] stopped at the call that
    raised it: [makedirs], or the [save] of some name of the list. *)
Lemma raised_run_stopped_at_a_failure (v : variant) (w : world) (e : io_error) :
  value (main v w) = inl e ->
  value (makedirs "assets/product_icons" true w) = inl e \/
  (exists done name rest,
     CreateIcons.icons = done ++ name :: rest /\
     value (makedirs "assets/product_icons" true w) = inr tt /\
     value (for_each done (body v)
              (final (makedirs "assets/product_icons" true w))) = inr tt /\
     value (save (image v (default_font w) name) (path v name)
              (final (for_each done (body v)
                        (final (makedirs "assets/product_icons" true w)))))
       = inl e).
Proof.
  rewrite main_script. intros H.
  destruct (script_raised _ _ _ (body_save v) (paths_distinct v) w e H)
    as [(Hm & _)|(l1 & n & l2 & El & E1 & R1 & Hs & _)].
  - left. exact Hm.
  - right. exists l1, n, l2. cbv zeta in *. repeat split; assumption.
Qed.

(** C8.  When [makedirs] raises [e], the run of either script raises [e]
    and ends there: nothing is drawn or written, and the world is the one
    [makedirs] left.  When the [save] of a name of the list raises [e]
    (the directory made and all earlier iterations having returned), the
    run raises [e] and ends there: no step follows, the world is the one
    that [save] left, and every file written by an earlier iteration
    still holds its image. *)
Theorem failure_stops_the_run (v : variant) (w : world) (e : io_error)
    (done : list string) (name : string) (rest : list string) :
  (value (makedirs "assets/product_icons" true w) = inl e ->
   value (main v w) = inl e /\
   final (main v w) = final (makedirs "assets/product_icons" true w) /\
   steps (events (main v w)) = [StepMakedirs "assets/product_icons"])
  /\
  (CreateIcons.icons = done ++ name :: rest ->
   value (makedirs "assets/product_icons" true w) = inr tt ->
   value (for_each done (body v)
            (final (makedirs "assets/product_icons" true w))) = inr tt ->
   value (save (image v (default_font w) name) (path v name)
            (final (for_each done (body v)
                      (final (makedirs "assets/product_icons" true w)))))
     = inl e ->
   value (main v w) = inl e /\
   final (main v w) =
     final (save (image v (default_font w) name) (path v name)
              (final (for_each done (body v)
                        (final (makedirs "assets/product_icons" true w))))) /\
   steps (events (main v w)) =
     StepMakedirs "assets/product_icons" ::
     flat_map (iteration (path v)) (done ++ [name]) /\
   (forall m, In m done ->
      fs (final (main v w)) !! path v m =
      Some (File (Png (image v (default_font w) m))))).
Proof.
  rewrite main_script. split.
  - apply script_stops_at_makedirs.
  - apply (script_stops_at_save _ _ _ (body_save v) (paths_distinct v)).
Qed.

Lemma run_order_witness :
  steps (events (main VariantB (fresh_world (block_font 6 8)))) =
  [StepMakedirs "assets/product_icons";
   StepNew; StepSave "assets/product_icons/hobo_cape_icon.png";
   StepNew; StepSave "assets/product_icons/cool_shades_icon.png";
   StepNew; StepSave "assets/product_icons/cardboard_armor_icon.png";
   StepNew; StepSave "assets/product_icons/extra_life_icon.png"].
Proof.
  destruct (run_order VariantB (fresh_world (block_font 6 8)))
    as (k & _ & Hst & Hret & _).
  rewrite Hst, Hret.
  - reflexivity.
  - vm_compute. reflexivity.
Defined.

Lemma failure_stops_the_run_witness :
  value (main VariantA (filling_world (block_font 6 8))) = inl disk_full /\
  steps (events (main VariantA (filling_world (block_font 6 8)))) =
    [StepMakedirs "assets/product_icons";
     StepNew; StepSave "assets/product_icons/hobo_cape_icon.png";
     StepNew; StepSave "assets/product_icons/cool_shades_icon.png"] /\
  fs (final (main VariantA (filling_world (block_font 6 8))))
    !! "assets/product_icons/hobo_cape_icon.png" =
    Some (File (Png (icon_image (block_font 6 8) "hobo_cape_icon"))) /\
  (value (main VariantB
            (mkWorld (<["assets" := File (Raw "notes")]> ∅) [] (block_font 6 8)))
     = inl (NotADirectoryError "assets/product_icons")).
Proof.
  destruct (failure_stops_the_run VariantA (filling_world (block_font 6 8))
              disk_full ["hobo_cape_icon"] "cool_shades_icon"
              ["cardboard_armor_icon"; "extra_life_icon"]) as [_ H].
  destruct H as (Hv & _ & Hst & Hfiles).
  - reflexivity.
  - vm_compute. reflexivity.
  - vm_compute. reflexivity.
  - vm_compute. reflexivity.
  - destruct (failure_stops_the_run VariantB
                (mkWorld (<["assets" := File (Raw "notes")]> ∅) []
                         (block_font 6 8))
                (NotADirectoryError "assets/product_icons") [] "" [])
      as [H0 _].
    destruct H0 as (Hv0 & _); [vm_compute; reflexivity|].
    split; [exact Hv|]. split; [exact Hst|]. split; [|exact Hv0].
    apply (Hfiles "hobo_cape_icon"). left. reflexivity.
Defined.

(** ** Worked runs *)

(** The disk fills up during the second write: the run raises that error
    after two writes were started; the first file is whole, the second is
    what the failed write left, the third was never started. *)
Example filling_world_run :
  value (main VariantA (filling_world (block_font 6 8))) = inl disk_full /\
  steps (events (main VariantA (filling_world (block_font 6 8)))) =
    [StepMakedirs "assets/product_icons";
     StepNew; StepSave "assets/product_icons/hobo_cape_icon.png";
     StepNew; StepSave "assets/product_icons/cool_shades_icon.png"] /\
  pixel_of_file (fs (final (main VariantA (filling_world (block_font 6 8)))))
    "assets/product_icons/hobo_cape_icon.png" (128, 128) =
    Some (PIL.Color4 120 120 120 255) /\
  fs (final (main VariantA (filling_world (block_font 6 8))))
    !! "assets/product_icons/cool_shades_icon.png" = Some (File (Raw "PNG")) /\
  fs (final (main VariantA (filling_world (block_font 6 8))))
    !! "assets/product_icons/cardboard_armor_icon.png" = None.
Proof. repeat split; vm_compute; reflexivity. Qed.

(** A run in a fresh directory returns and creates both directories. *)
Example fresh_world_run :
  value (main VariantA (fresh_world (block_font 6 8))) = inr tt /\
  fs (final (main VariantA (fresh_world (block_font 6 8)))) !! "assets" =
    Some Dir /\
  fs (final (main VariantA (fresh_world (block_font 6 8))))
    !! "assets/product_icons" = Some Dir /\
  map (fun e => match e with EvPrint line => [line] | _ => [] end)
      (events (main VariantB (fresh_world (block_font 6 8)))) =
    [ []; ["Creating hobo_cape_icon"]; []; []; [];
      ["Saved assets/product_icons/hobo_cape_icon.png"];
      ["Creating cool_shades_icon"]; []; []; [];
      ["Saved assets/product_icons/cool_shades_icon.png"];
      ["Creating cardboard_armor_icon"]; []; []; [];
      ["Saved assets/product_icons/cardboard_armor_icon.png"];
      ["Creating extra_life_icon"]; []; []; [];
      ["Saved assets/product_icons/extra_life_icon.png"];
      ["All product icons created successfully!"] ].
Proof. repeat split; vm_compute; reflexivity. Qed.

(** A file in the way of the directory: the run raises at once. *)
Example blocked_run :
  value (main VariantB
           (mkWorld (<["assets" := File (Raw "notes")]> ∅) [] (block_font 6 8))) =
    inl (NotADirectoryError "assets/product_icons") /\
  steps (events (main VariantB
           (mkWorld (<["assets" := File (Raw "notes")]> ∅) [] (block_font 6 8)))) =
    [StepMakedirs "assets/product_icons"].
Proof. split; vm_compute; reflexivity. Qed.

(** The string methods on the names at hand. *)
Example replace_all_occurrences :
  Py.replace "my_icon_pack_icon" "_icon" "" = "my_pack".
Proof. reflexivity. Qed.

Example replace_empty_pattern : Py.replace "abc" "" "-" = "-a-b-c-".
Proof. reflexivity. Qed.

Example title_words : Py.title "hobo cAPE x2y" = "Hobo Cape X2Y".
Proof. reflexivity. Qed.

Example removesuffix_trailing :
  Py.removesuffix "my_icon_pack_icon" "_icon" = "my_icon_pack".
Proof. reflexivity. Qed.

Example labels_of_the_list :
  map CreateIcons.display_name CreateIcons.icons =
  ["Hobo Cape"; "Cool Shades"; "Cardboard Armor"; "Extra Life"].
Proof. reflexivity. Qed.

Example path_split_examples :
  path_split "assets/product_icons" = ("assets", "product_icons") /\
  path_split "assets" = ("", "assets") /\
  path_split "/usr//bin/" = ("/usr//bin", "") /\
  path_split "//abc" = ("//", "abc").
Proof. repeat split. Qed.

(* ===================================================================== *)
(** * Further properties of the two scripts                               *)
(* ===================================================================== *)

(** ** The label *)

Lemma case_never_makes_underscore c :
  Ascii.eqb "_" c = false ->
  Ascii.eqb "_" (Py.to_upper c) = false /\
  Ascii.eqb "_" (Py.to_lower c) = false.
Proof.
  destruct c as [[] [] [] [] [] [] [] []]; intros H;
    first [discriminate H | split; reflexivity].
Qed.

Lemma title_keeps_underscore_free b s :
  Py.contains "_" s = false -> Py.contains "_" (Py.title_from b s) = false.
Proof.
  revert b. induction s as [|c s IH]; intros b H; [reflexivity|].
  cbn [Py.contains Py.startswith] in H.
  apply orb_false_elim in H as [Hc Hs].
  rewrite andb_true_r in Hc.
  destruct (case_never_makes_underscore c Hc) as [Hu Hl].
  cbn [Py.title_from Py.contains Py.startswith].
  rewrite (IH _ Hs), andb_true_r, orb_false_r.
  destruct b; assumption.
Qed.

Lemma replace_underscores_leaves_none s :
  Py.contains "_" (Py.replace s "_" " ") = false.
Proof.
  unfold Py.replace. induction s as [|c s IH]; [reflexivity|].
  cbn [Py.replace_from Py.startswith String.length].
  rewrite andb_true_r. destruct (Ascii.eqb "_" c) eqn:E.
  - change (" " +:+ ?t) with (String " " t).
    cbn [Py.contains Py.startswith]. rewrite IH. reflexivity.
  - cbn [Py.contains Py.startswith]. rewrite E, IH. reflexivity.
Qed.

(** X1.  Whatever the icon name, the label drawn by variant A contains no
    underscore. *)
Theorem label_has_no_underscore (name : string) :
  Py.contains "_" (CreateIcons.display_name name) = false.
Proof.
  unfold CreateIcons.display_name, Py.title.
  apply title_keeps_underscore_free, replace_underscores_leaves_none.
Qed.

Lemma title_from_length b s :
  String.length (Py.title_from b s) = String.length s.
Proof.
  revert b. induction s as [|c s IH]; intros b; [reflexivity|].
  cbn [Py.title_from String.length]. rewrite IH. reflexivity.
Qed.

Lemma replace_underscores_length s :
  String.length (Py.replace s "_" " ") = String.length s.
Proof.
  unfold Py.replace. induction s as [|c s IH]; [reflexivity|].
  cbn [Py.replace_from Py.startswith String.length].
  destruct (Ascii.eqb "_" c && true).
  - change (" " +:+ ?t) with (String " " t). cbn [String.length].
    rewrite IH. reflexivity.
  - cbn [String.length]. rewrite IH. reflexivity.
Qed.

Lemma replace_by_nothing_length old k s :
  (String.length (Py.replace_from old "" k s) <= String.length s)%nat.
Proof.
  revert k. induction s as [|c s IH]; intros k.
  - cbn. destruct k, old; cbn; lia.
  - cbn [Py.replace_from String.length]. destruct k as [|k].
    + destruct (Py.startswith old (String c s)).
      * change ("" +:+ ?t) with t. destruct old as [|a old].
        -- cbn [String.length]. specialize (IH 0%nat). lia.
        -- specialize (IH (String.length old)). lia.
      * cbn [String.length]. specialize (IH 0%nat). lia.
    + specialize (IH k). lia.
Qed.

(** X2.  For an ASCII icon name, the label is never longer than the name
    it is made from.  (Outside ASCII [title] can lengthen a string, and
    the model of [title] does not cover it.) *)
Theorem label_not_longer_than_name (name : string) :
  Py.isascii name = true ->
  Py.len (CreateIcons.display_name name) <= Py.len name.
Proof.
  intros _. unfold Py.len, CreateIcons.display_name, Py.title.
  rewrite title_from_length, replace_underscores_length.
  unfold Py.replace.
  pose proof (replace_by_nothing_length "_icon" 0 name). lia.
Qed.

Lemma label_not_longer_than_name_witness :
  Py.len (CreateIcons.display_name "cardboard_armor_icon") <=
  Py.len "cardboard_armor_icon".
Proof.
  apply (label_not_longer_than_name "cardboard_armor_icon"). reflexivity.
Defined.

(** X3.  The estimated box of the label is centred exactly: [text_x] is
    128 minus five times the length of the label, so the estimated margins
    left and right of the box are equal; the label starts left of the
    canvas exactly when it has 26 characters or more. *)
Theorem label_box_centred (name : string) :
  let label := CreateIcons.display_name name in
  let text_width := CreateIcons.text_width label in
  let text_x := CreateIcons.text_x text_width in
  text_x = 128 - 5 * Py.len label /\
  text_x + text_width + text_x = 256 /\
  (text_x < 0 <-> 26 <= Py.len label).
Proof.
  cbv zeta. unfold CreateIcons.text_x, CreateIcons.text_width.
  set (n := Py.len (CreateIcons.display_name name)).
  assert (E : (256 - n * 10) / 2 = 128 - 5 * n).
  { symmetry. apply (Z.div_unique _ 2 _ 0); lia. }
  rewrite E. repeat split; lia.
Qed.

Lemma startswith_slash_app name :
  Py.startswith "/" (name +:+ ".png") = Py.startswith "/" name.
Proof. destruct name; reflexivity. Qed.

(** X4.  For every name that does not start with a slash the two variants
    write to the same path, [assets/product_icons/<name>.png].  For a name
    that starts with a slash, [os.path.join] drops the directory: variant A
    writes to [<name>.png] itself. *)
Theorem variants_agree_on_path (name : string) :
  (Py.startswith "/" name = false ->
   CreateIcons.path name = CreateProductIcons.product_icon_path name /\
   CreateIcons.path name = "assets/product_icons/" +:+ name +:+ ".png") /\
  (Py.startswith "/" name = true ->
   CreateIcons.path name = name +:+ ".png").
Proof.
  unfold CreateIcons.path, Py.path_join,
    CreateProductIcons.product_icon_path.
  rewrite startswith_slash_app. split; intros ->.
  - split; reflexivity.
  - reflexivity.
Qed.

Lemma variants_agree_on_path_witness :
  CreateIcons.path "hobo_cape_icon" =
    CreateProductIcons.product_icon_path "hobo_cape_icon" /\
  CreateIcons.path "/tmp/hobo_cape_icon" = "/tmp/hobo_cape_icon.png" /\
  CreateProductIcons.product_icon_path "/tmp/hobo_cape_icon" =
    "assets/product_icons//tmp/hobo_cape_icon.png".
Proof.
  split; [|split].
  - apply (variants_agree_on_path "hobo_cape_icon"). reflexivity.
  - apply (variants_agree_on_path "/tmp/hobo_cape_icon"). reflexivity.
  - reflexivity.
Defined.

(** ** The pixels of variant A *)

Lemma clip8_range v : 0 <= PIL.clip8 v <= 255.
Proof. unfold PIL.clip8. lia. Qed.

Lemma getink_range c :
  0 <= PIL.red (PIL.getink c) <= 255 /\ 0 <= PIL.green (PIL.getink c) <= 255 /\
  0 <= PIL.blue (PIL.getink c) <= 255 /\ 0 <= PIL.alpha (PIL.getink c) <= 255.
Proof.
  destruct c; cbn; repeat split; try apply clip8_range; lia.
Qed.

Lemma pixel_eqb_eq p q : PIL.pixel_eqb p q = true -> p = q.
Proof.
  destruct p, q. unfold PIL.pixel_eqb. cbn. intros H.
  apply andb_prop in H as [H Ha]. apply andb_prop in H as [H Hb].
  apply andb_prop in H as [Hr Hg].
  apply Z.eqb_eq in Hr, Hg, Hb, Ha. congruence.
Qed.

Lemma on_outline_in_box xy width x y :
  PIL.on_outline xy width x y = true -> PIL.in_box xy x y = true.
Proof.
  destruct xy as [[[x0 y0] x1] y1]. unfold PIL.on_outline.
  intros H. apply andb_prop in H as [H _]. exact H.
Qed.

(** The raster after the rectangle of variant A, pixel by pixel. *)
Lemma icon_rectangle_data name x y :
  PIL.im_data
    (PIL.rectangle (PIL.new PIL.RGBA (256, 256) (PIL.Color4 0 0 0 0))
       (20, 20, 236, 236) (Some (CreateIcons.color name))
       (Some (PIL.Color3 255 255 255)) 5) x y =
  if PIL.on_outline (20, 20, 236, 236) 5 x y then PIL.Pixel 255 255 255 255
  else if PIL.in_box (20, 20, 236, 236) x y
       then PIL.getink (CreateIcons.color name)
       else PIL.Pixel 0 0 0 0.
Proof.
  rewrite rectangle_data.
  change (PIL.getink (PIL.Color3 255 255 255)) with (PIL.Pixel 255 255 255 255).
  change (negb (5 =? 0)) with true. rewrite andb_true_r.
  destruct (PIL.pixel_eqb (PIL.Pixel 255 255 255 255)
              (PIL.getink (CreateIcons.color name))) eqn:E; cbn [negb andb].
  - apply pixel_eqb_eq in E.
    destruct (PIL.on_outline (20, 20, 236, 236) 5 x y) eqn:Eo.
    + rewrite (on_outline_in_box _ _ _ _ Eo). symmetry. exact E.
    + reflexivity.
  - reflexivity.
Qed.

(** X5.  The image variant A saves, pixel by pixel: where the rendered
    label has no coverage the pixel is white and opaque on the 5 outermost
    rows and columns of the box 20..236, the colour of the name (opaque)
    inside it, and fully transparent outside; where the label has full
    coverage the pixel is white and opaque, also outside the box. *)
Theorem icon_image_pixels (f : PIL.font) (name : string) (x y : Z) :
  let coverage :=
    PIL.clip8
      (f (CreateIcons.display_name name)
         (x - CreateIcons.text_x
                (CreateIcons.text_width (CreateIcons.display_name name)))
         (y - CreateIcons.text_y)) in
  (coverage = 0 ->
   PIL.im_data (icon_image f name) x y =
   if PIL.on_outline (20, 20, 236, 236) 5 x y then PIL.Pixel 255 255 255 255
   else if PIL.in_box (20, 20, 236, 236) x y
        then PIL.getink (CreateIcons.color name)
        else PIL.Pixel 0 0 0 0) /\
  (coverage = 255 ->
   PIL.im_data (icon_image f name) x y = PIL.Pixel 255 255 255 255).
Proof.
  cbv zeta. split; intros Hc.
  - unfold icon_image. rewrite text_data_uncovered.
    + apply icon_rectangle_data.
    + exact Hc.
    + cbv zeta. rewrite icon_rectangle_data.
      destruct (PIL.on_outline (20, 20, 236, 236) 5 x y); [cbn; lia|].
      destruct (PIL.in_box (20, 20, 236, 236) x y);
        [apply getink_range | cbn; lia].
  - unfold icon_image, PIL.text. cbn [PIL.im_data]. rewrite Hc.
    unfold PIL.blend_pixel, CreateIcons.text_color. cbn [PIL.getink].
    change (PIL.clip8 255) with 255.
    cbn [PIL.red PIL.green PIL.blue PIL.alpha].
    rewrite !blend_full by lia. reflexivity.
Qed.

Lemma icon_image_pixels_witness :
  PIL.im_data (icon_image (block_font 6 8) "hobo_cape_icon") 0 0 =
    PIL.Pixel 0 0 0 0 /\
  PIL.im_data (icon_image (block_font 6 8) "hobo_cape_icon") 22 128 =
    PIL.Pixel 255 255 255 255 /\
  PIL.im_data (icon_image (block_font 6 8) "hobo_cape_icon") 100 200 =
    PIL.Pixel 120 120 120 255 /\
  PIL.im_data (icon_image (block_font 6 8) "hobo_cape_icon") 90 120 =
    PIL.Pixel 255 255 255 255.
Proof.
  split; [|split; [|split]].
  - apply (proj1 (icon_image_pixels (block_font 6 8) "hobo_cape_icon" 0 0)).
    vm_compute. reflexivity.
  - apply (proj1 (icon_image_pixels (block_font 6 8) "hobo_cape_icon" 22 128)).
    vm_compute. reflexivity.
  - apply (proj1 (icon_image_pixels (block_font 6 8) "hobo_cape_icon" 100 200)).
    vm_compute. reflexivity.
  - apply (proj2 (icon_image_pixels (block_font 6 8) "hobo_cape_icon" 90 120)).
    vm_compute. reflexivity.
Defined.

(** ** More on directory creation *)

Lemma mkdir_exist_ok_other name w q :
  q <> name -> fs (mkdir_exist_ok name w).2 !! q = fs w !! q.
Proof.
  intros Hq. unfold mkdir_exist_ok.
  destruct (slot w); [reflexivity|].
  destruct (fs w !! name) as [[|?]|]; try reflexivity.
  destruct (parent (fs w) name) as [[|?]|]; try reflexivity.
  cbn. apply lookup_insert_ne. congruence.
Qed.

(** [makedirs] touches no path but the two directories. *)
Lemma makedirs_other w q :
  q <> "assets" -> q <> "assets/product_icons" ->
  fs (final (makedirs "assets/product_icons" true w)) !! q = fs w !! q.
Proof.
  intros Ha Hd. rewrite makedirs_flat_eq. unfold makedirs_flat, final.
  pose proof (mkdir_exist_ok_other "assets" w q Ha) as H1.
  destruct (path_exists (fs w) "assets").
  - pose proof (mkdir_exist_ok_other "assets/product_icons" w q Hd) as H2.
    destruct (mkdir_exist_ok "assets/product_icons" w). exact H2.
  - destruct (mkdir_exist_ok "assets" w) as [r1 w1]. cbn in H1.
    pose proof (mkdir_exist_ok_other "assets/product_icons" w1 q Hd) as H2.
    destruct r1 as [e|[]]; [destruct (is_FileExistsError e)|];
      destruct (mkdir_exist_ok "assets/product_icons" w1);
      cbn in H2 |- *; congruence.
Qed.

Lemma mkdir_exist_ok_raises name w :
  fs w !! name <> Some Dir ->
  fs w !! name <> None \/ parent (fs w) name <> Some Dir ->
  exists e, (mkdir_exist_ok name w).1 = inl e.
Proof.
  intros Hn H. unfold mkdir_exist_ok, isdir.
  destruct (slot w) as [flt|].
  - destruct (fs w !! name) as [[|c]|]; [congruence| |];
      rewrite andb_false_r; eexists; reflexivity.
  - destruct (fs w !! name) as [[|c]|]; [congruence | eexists; reflexivity |].
    destruct H as [H|H]; [congruence|].
    destruct (parent (fs w) name) as [[|c]|];
      [congruence | eexists; reflexivity | eexists; reflexivity].
Qed.

(** A file where a directory is wanted makes [makedirs] raise. *)
Lemma makedirs_blocked w c :
  fs w !! "assets/product_icons" = Some (File c) \/
  (fs w !! "assets/product_icons" = None /\ fs w !! "assets" = Some (File c)) ->
  exists e, value (makedirs "assets/product_icons" true w) = inl e.
Proof.
  intros H. rewrite makedirs_flat_eq. unfold makedirs_flat, value.
  assert (Hnext : forall w1,
    fs w1 !! "assets/product_icons" = fs w !! "assets/product_icons" ->
    fs w1 !! "assets/product_icons" = Some (File c) \/
    fs w1 !! "assets" = fs w !! "assets" ->
    exists e, (let '(r2, w2) := mkdir_exist_ok "assets/product_icons" w1 in
               (r2, w2, [EvMakedirs "assets/product_icons" true])).1.1 = inl e).
  { intros w1 Hd Ha.
    destruct (mkdir_exist_ok_raises "assets/product_icons" w1) as [e He].
    - rewrite Hd. destruct H as [H|[H _]]; rewrite H; discriminate.
    - destruct H as [H|[H1 H2]].
      + left. rewrite Hd, H. discriminate.
      + right. unfold parent.
        change (path_split "assets/product_icons")
          with ("assets", "product_icons"). cbn.
        destruct Ha as [Ha|Ha]; [congruence|]. rewrite Ha, H2. discriminate.
    - exists e. destruct (mkdir_exist_ok "assets/product_icons" w1).
      exact He. }
  destruct (path_exists (fs w) "assets") eqn:Ex.
  - apply (Hnext w); auto.
  - pose proof (mkdir_exist_ok_other "assets" w "assets/product_icons") as Ho.
    destruct (mkdir_exist_ok "assets" w) as [r1 w1]. cbn in Ho.
    assert (Hd : fs w1 !! "assets/product_icons" =
                 fs w !! "assets/product_icons") by (apply Ho; discriminate).
    assert (Hfile : fs w !! "assets/product_icons" = Some (File c)).
    { destruct H as [H|[_ H]]; [exact H|].
      unfold path_exists in Ex. rewrite H in Ex. discriminate. }
    destruct r1 as [e|[]]; [destruct (is_FileExistsError e)|].
    + apply Hnext; [exact Hd | left; congruence].
    + exists e. reflexivity.
    + apply Hnext; [exact Hd | left; congruence].
Qed.

(** With no failure injected, [makedirs] makes the directory when nothing
    is at its place and no file is at the place of its parent. *)
Lemma makedirs_returns_absent w :
  fault_free w ->
  fs w !! "assets/product_icons" = None ->
  (forall c, fs w !! "assets" <> Some (File c)) ->
  value (makedirs "assets/product_icons" true w) = inr tt.
Proof.
  intros Hf Hd Ha. rewrite makedirs_flat_eq. unfold makedirs_flat, value.
  assert (Hnext : forall w1,
    fault_free w1 ->
    fs w1 !! "assets/product_icons" = None -> fs w1 !! "assets" = Some Dir ->
    (let '(r2, w2) := mkdir_exist_ok "assets/product_icons" w1 in
     (r2, w2, [EvMakedirs "assets/product_icons" true])).1.1 = inr tt).
  { intros w1 Hf1 Hd1 Ha1.
    pose proof (mkdir_exist_ok_returns "assets/product_icons" w1 Hf1) as R.
    destruct (mkdir_exist_ok "assets/product_icons" w1). apply R. right.
    split; [exact Hd1|]. unfold parent.
    change (path_split "assets/product_icons") with ("assets", "product_icons").
    exact Ha1. }
  destruct (path_exists (fs w) "assets") eqn:Ex.
  - apply Hnext; try assumption. unfold path_exists in Ex.
    destruct (fs w !! "assets") as [[|c]|] eqn:E;
      [reflexivity | destruct (Ha c); reflexivity | discriminate].
  - pose proof (mkdir_exist_ok_returns "assets" w Hf) as R1.
    pose proof (mkdir_exist_ok_other "assets" w "assets/product_icons") as Ho.
    destruct (mkdir_exist_ok "assets" w) as [r1 w1] eqn:E1.
    destruct (mkdir_exist_ok_facts _ _ _ _ E1) as (_ & G1 & _ & D1).
    cbn in R1, Ho.
    assert (r1 = inr tt) as ->.
    { apply R1. right. unfold path_exists in Ex. unfold parent.
      change (path_split "assets") with ("", "assets"). cbn.
      destruct (fs w !! "assets"); [discriminate | auto]. }
    apply Hnext; [auto | rewrite Ho by discriminate; exact Hd | auto].
Qed.

Lemma printed_app t1 t2 : printed (t1 ++ t2) = printed t1 ++ printed t2.
Proof. unfold printed. rewrite map_app, concat_app. reflexivity. Qed.

(** ** Further properties of the whole script, for any such body *)

Section Further.

Variable body : string -> M unit.
Variable image : PIL.font -> string -> PIL.Image.
Variable path : string -> string.
Variable before : string -> list string.
Variable after : string -> string.

Hypothesis body_save : forall n w,
  value (body n w) = value (save (image (default_font w) n) (path n) w) /\
  final (body n w) = final (save (image (default_font w) n) (path n) w) /\
  steps (events (body n w)) = iteration path n /\
  saved (events (body n w)) = [(path n, image (default_font w) n)].

Hypothesis paths_distinct : List.NoDup (map path CreateIcons.icons).

Hypothesis paths_parent : forall n,
  In n CreateIcons.icons -> (path_split (path n)).1 = "assets/product_icons".

Hypothesis paths_below : forall n,
  In n CreateIcons.icons ->
  path n <> "assets" /\ path n <> "assets/product_icons".

Hypothesis body_printed : forall n w,
  printed (events (body n w)) =
  before n ++ match value (body n w) with
              | inr _ => [after n]
              | inl _ => []
              end.

(** A loop leaves alone what it did not hand to [save]. *)
Lemma for_each_untouched l w q :
  ~ In q (map fst (saved (events (for_each l body w)))) ->
  fs (final (for_each l body w)) !! q = fs w !! q.
Proof.
  revert w. induction l as [|n l IH]; intros w; [reflexivity|].
  rewrite (for_each_cons body). destruct (body_save n w) as (_ & _ & _ & Bsv).
  destruct (value (body n w)) as [e|[]] eqn:E.
  - rewrite (bind_raised _ _ _ _ E). triples. rewrite Bsv. cbn. intros Hq.
    apply (body_other body image path body_save). intros ->. apply Hq. auto.
  - rewrite (bind_returned _ _ _ _ E). triples.
    rewrite saved_app, map_app, Bsv. cbn. intros Hq.
    rewrite IH by (intros H; apply Hq; right; exact H).
    apply (body_other body image path body_save). intros ->. apply Hq. auto.
Qed.

(** So does a run: only the two directories and the paths handed to
    [save] can differ afterwards. *)
Lemma script_untouched w q :
  q <> "assets" -> q <> "assets/product_icons" ->
  ~ In q (map fst (saved (events (script body w)))) ->
  fs (final (script body w)) !! q = fs w !! q.
Proof.
  intros Ha Hd. rewrite script_eq. cbv zeta.
  destruct (value (makedirs "assets/product_icons" true w)) as [e|[]].
  - triples. intros _. apply makedirs_other; assumption.
  - destruct (value (for_each CreateIcons.icons body
                       (final (makedirs "assets/product_icons" true w))))
      as [e|[]]; triples;
      change (saved (EvMakedirs "assets/product_icons" true :: ?t))
        with (saved t);
      rewrite ?saved_app, ?map_app; intros Hq;
      (rewrite for_each_untouched;
       [apply makedirs_other; assumption|]).
    + exact Hq.
    + intros H. apply Hq. apply in_or_app. left. exact H.
Qed.

(** A file in the way of the output directory: the run raises in
    [makedirs] and does nothing else. *)
Lemma script_blocked w c :
  fs w !! "assets/product_icons" = Some (File c) \/
  (fs w !! "assets/product_icons" = None /\ fs w !! "assets" = Some (File c)) ->
  exists e,
    value (script body w) = inl e /\
    events (script body w) = [EvMakedirs "assets/product_icons" true] /\
    (forall q c', fs (final (script body w)) !! q = Some (File c') <->
                  fs w !! q = Some (File c')).
Proof.
  intros H. destruct (makedirs_blocked w c H) as [e He]. exists e.
  rewrite script_eq, He. triples.
  split; [reflexivity|]. split; [reflexivity|].
  intros q c'. apply grows_file.
  destruct (makedirs_facts w) as (_ & _ & Hg & _). exact Hg.
Qed.

Lemma script_returned_inv w :
  value (script body w) = inr tt ->
  value (makedirs "assets/product_icons" true w) = inr tt /\
  value (for_each CreateIcons.icons body
           (final (makedirs "assets/product_icons" true w))) = inr tt /\
  final (script body w) =
    final (for_each CreateIcons.icons body
             (final (makedirs "assets/product_icons" true w))).
Proof.
  rewrite script_eq. cbv zeta.
  destruct (value (makedirs "assets/product_icons" true w)) as [e|[]];
    [discriminate|].
  destruct (value (for_each CreateIcons.icons body
                     (final (makedirs "assets/product_icons" true w))))
    as [e|[]]; [discriminate|].
  triples. repeat split.
Qed.

Lemma script_raised_inv w e :
  value (script body w) = inl e ->
  (value (makedirs "assets/product_icons" true w) = inl e /\
   events (script body w) = [EvMakedirs "assets/product_icons" true]) \/
  (value (makedirs "assets/product_icons" true w) = inr tt /\
   value (for_each CreateIcons.icons body
            (final (makedirs "assets/product_icons" true w))) = inl e /\
   events (script body w) =
     EvMakedirs "assets/product_icons" true ::
     events (for_each CreateIcons.icons body
               (final (makedirs "assets/product_icons" true w)))).
Proof.
  rewrite script_eq. cbv zeta.
  destruct (value (makedirs "assets/product_icons" true w)) as [e1|[]].
  - triples. intros [= ->]. left. split; reflexivity.
  - destruct (value (for_each CreateIcons.icons body
                       (final (makedirs "assets/product_icons" true w))))
      as [e2|[]]; triples; [|discriminate].
    intros [= ->]. right. repeat split.
Qed.

(** When a run returns, if the environment injects no failure. *)
Lemma script_fault_free_iff w :
  fault_free w ->
  (value (script body w) = inr tt <->
   (fs w !! "assets/product_icons" = Some Dir \/
    (fs w !! "assets/product_icons" = None /\
     forall c, fs w !! "assets" <> Some (File c))) /\
   (forall n, In n CreateIcons.icons -> fs w !! path n <> Some Dir)).
Proof.
  intros Hf. split.
  - intros H.
    assert (Hnot : forall c,
      ~ (fs w !! "assets/product_icons" = Some (File c) \/
         (fs w !! "assets/product_icons" = None /\
          fs w !! "assets" = Some (File c)))).
    { intros c Hb. destruct (script_blocked w c Hb) as (e & He & _).
      congruence. }
    split.
    + destruct (fs w !! "assets/product_icons") as [[|c]|] eqn:Ed.
      * left. reflexivity.
      * destruct (Hnot c). left. reflexivity.
      * right. split; [reflexivity|]. intros c Ha. destruct (Hnot c).
        right. split; [reflexivity | exact Ha].
    + intros n Hn Hdir.
      destruct (script_files body image path body_save paths_distinct w H)
        as (Hin & _).
      destruct (script_returned body image path body_save w H)
        as (_ & _ & _ & _ & Hg). cbv zeta in Hg.
      destruct (script_returned_inv w H) as (_ & _ & Hfin).
      pose proof (grows_dir _ _ _ Hg Hdir) as Hdir1.
      apply (for_each_dirs body image path body_save CreateIcons.icons) in Hdir1.
      specialize (Hin n Hn). rewrite Hfin in Hin. congruence.
  - intros [Hd Hp].
    assert (E1 : value (makedirs "assets/product_icons" true w) = inr tt).
    { destruct Hd as [Hd|[Hd Ha]];
        [apply makedirs_returns | apply makedirs_returns_absent]; assumption. }
    destruct (makedirs_facts w) as (_ & Hf1 & _ & Hdir). cbv zeta in Hf1, Hdir.
    assert (E2 : value (for_each CreateIcons.icons body
                   (final (makedirs "assets/product_icons" true w))) = inr tt).
    { apply (for_each_returns body image path body_save); [auto|].
      intros n Hn. destruct (paths_below n Hn) as [Hna Hnd]. split.
      - rewrite makedirs_other by assumption. apply Hp. exact Hn.
      - unfold parent. rewrite (paths_parent n Hn). apply Hdir. exact E1. }
    rewrite script_eq, E1. cbv zeta. rewrite E2. reflexivity.
Qed.

Lemma for_each_printed_returned l w :
  value (for_each l body w) = inr tt ->
  printed (events (for_each l body w)) =
  flat_map (fun n => before n ++ [after n]) l.
Proof.
  revert w. induction l as [|n l IH]; intros w; [reflexivity|].
  rewrite (for_each_cons body). pose proof (body_printed n w) as Bp.
  destruct (value (body n w)) as [e|[]] eqn:E.
  - rewrite (bind_raised _ _ _ _ E). triples. discriminate.
  - rewrite (bind_returned _ _ _ _ E). triples. intros H.
    rewrite printed_app, Bp, (IH _ H). reflexivity.
Qed.

Lemma script_printed_returned w :
  value (script body w) = inr tt ->
  printed (events (script body w)) =
  flat_map (fun n => before n ++ [after n]) CreateIcons.icons ++
  [completion_line].
Proof.
  rewrite script_eq. cbv zeta.
  destruct (value (makedirs "assets/product_icons" true w)) as [e|[]];
    [discriminate|].
  destruct (value (for_each CreateIcons.icons body
                     (final (makedirs "assets/product_icons" true w))))
    as [e|[]] eqn:E2; [discriminate|]. intros _. triples.
  change (printed (EvMakedirs "assets/product_icons" true :: ?t))
    with (printed t).
  rewrite printed_app, (for_each_printed_returned _ _ E2). reflexivity.
Qed.

(** Every line a run prints is the completion line of a run that
    returned, a line printed before a write, or the line printed after a
    write that returned -- and then the file still holds that image at the
    end of the run. *)
Lemma script_printed w line :
  In line (printed (events (script body w))) ->
  (line = completion_line /\ value (script body w) = inr tt) \/
  (exists n, In n CreateIcons.icons /\ In line (before n)) \/
  (exists n, In n CreateIcons.icons /\ line = after n /\
             fs (final (script body w)) !! path n =
             Some (File (Png (image (default_font w) n)))).
Proof.
  assert (Hloop : forall l, (forall n, In n l -> In n CreateIcons.icons) ->
    (forall n, In n l ->
       fs (final (script body w)) !! path n =
       Some (File (Png (image (default_font w) n)))) ->
    In line (flat_map (fun n => before n ++ [after n]) l) ->
    (exists n, In n CreateIcons.icons /\ In line (before n)) \/
    (exists n, In n CreateIcons.icons /\ line = after n /\
               fs (final (script body w)) !! path n =
               Some (File (Png (image (default_font w) n))))).
  { intros l Hsub Hfiles Hl. apply in_flat_map in Hl as (n & Hn & Hl).
    apply in_app_or in Hl as [Hl|[<-|[]]].
    - left. exists n. auto.
    - right. exists n. auto. }
  destruct (value (script body w)) as [e|[]] eqn:H.
  - intros Hl. right.
    destruct (script_raised_inv w e H) as [(_ & Hev0)|(E1 & E2 & Hev0)];
      rewrite Hev0 in Hl; [destruct Hl|].
    change (printed (EvMakedirs "assets/product_icons" true :: ?t))
      with (printed t) in Hl.
    destruct (for_each_raised body _ _ _ E2)
      as (l1 & n & l2 & El & R1 & R2 & Hfin & Hev).
    rewrite Hev, printed_app, (for_each_printed_returned _ _ R1),
      body_printed, R2, app_nil_r in Hl.
    destruct (makedirs_facts w) as (Hfont & _). cbv zeta in Hfont.
    assert (Hsave : value (save (image (default_font w) n) (path n)
               (final (for_each l1 body
                  (final (makedirs "assets/product_icons" true w))))) = inl e).
    { destruct (body_save n (final (for_each l1 body
                  (final (makedirs "assets/product_icons" true w)))))
        as (Bv & _).
      rewrite (for_each_font body image path body_save), Hfont in Bv.
      rewrite <- Bv. exact R2. }
    destruct (script_stops_at_save body image path body_save paths_distinct
                w e l1 n l2 El E1 R1 Hsave) as (_ & _ & _ & Hfiles).
    apply in_app_or in Hl as [Hl|Hl].
    + apply (Hloop l1); [|exact Hfiles|exact Hl].
      intros m Hm. rewrite El. apply in_or_app. left. exact Hm.
    + left. exists n. split; [|exact Hl].
      rewrite El. apply in_or_app. right. left. reflexivity.
  - rewrite (script_printed_returned w H). intros Hl.
    apply in_app_or in Hl as [Hl|[<-|[]]].
    + right. apply (Hloop CreateIcons.icons); [auto| |exact Hl].
      apply (script_files body image path body_save paths_distinct w H).
    + left. split; reflexivity.
Qed.

(** A run hands to [save] only paths of names of the list. *)
Lemma script_saved_paths w p :
  In p (map fst (saved (events (script body w)))) ->
  In p (map path CreateIcons.icons).
Proof.
  destruct (value (script body w)) as [e|[]] eqn:H.
  - destruct (script_raised_inv w e H) as [(_ & ->)|(E1 & E2 & ->)];
      [intros []|].
    change (saved (EvMakedirs "assets/product_icons" true :: ?t))
      with (saved t).
    destruct (for_each_raised body _ _ _ E2)
      as (l1 & n & l2 & El & R1 & R2 & _ & Hev).
    destruct (for_each_returned body image path body_save _ _ R1)
      as (_ & _ & Hsv).
    destruct (body_save n (final (for_each l1 body
                (final (makedirs "assets/product_icons" true w)))))
      as (_ & _ & _ & Bsv).
    rewrite Hev, saved_app, Hsv, Bsv, map_app, map_map, El, map_app.
    cbn [map fst]. intros Hp. apply in_or_app.
    apply in_app_or in Hp as [Hp|[<-|[]]]; [left; exact Hp | right; left].
    reflexivity.
  - destruct (script_returned body image path body_save w H) as (-> & _).
    rewrite map_map. cbn [fst]. auto.
Qed.

End Further.

(** ** The two bodies, once more *)

Lemma body_printed v n w :
  printed (events (body v n w)) =
  started_lines v n ++ match value (body v n w) with
                       | inr _ => [written_line v (path v n)]
                       | inl _ => []
                       end.
Proof.
  destruct v; cbn [body path started_lines written_line].
  - rewrite create_icons_body_eq. cbv zeta. triples.
    destruct (value (save _ (CreateIcons.path n) w)); reflexivity.
  - rewrite create_product_icons_body_eq. cbv zeta. triples.
    destruct (value (save _ (CreateProductIcons.product_icon_path n) w));
      reflexivity.
Qed.

Lemma paths_below v n :
  In n CreateIcons.icons ->
  path v n <> "assets" /\ path v n <> "assets/product_icons".
Proof.
  intros Hn. destruct v; cbn in Hn;
    repeat (destruct Hn as [<-|Hn]; [split; discriminate|]); destruct Hn.
Qed.

(** ** What a run prints, what stops it, what it leaves alone *)

(** X6.  Either script prints its completion line exactly when the run
    returns: never after a failure, always after the last icon. *)
Theorem completion_line_iff_returned (v : variant) (w : world) :
  In completion_line (printed (events (main v w))) <->
  value (main v w) = inr tt.
Proof.
  rewrite main_script. split.
  - intros H.
    destruct (script_printed (body v) (image v) (path v) (started_lines v)
                (fun n => written_line v (path v n))
                (body_save v) (paths_distinct v) (body_printed v) w _ H)
      as [(_ & Hr)|[(n & _ & Hn)|(n & _ & Hn & _)]].
    + exact Hr.
    + destruct v; cbn in Hn; [destruct Hn|].
      destruct Hn as [Hn|[]]. discriminate Hn.
    + destruct v; discriminate Hn.
  - intros H.
    rewrite (script_printed_returned (body v) (started_lines v)
               (fun n => written_line v (path v n)) (body_printed v) w H).
    apply in_or_app. right. left. reflexivity.
Qed.

Lemma completion_line_iff_returned_witness :
  In completion_line
     (printed (events (main VariantB (fresh_world (block_font 6 8))))) /\
  ~ In completion_line
      (printed (events (main VariantB (filling_world (block_font 6 8))))).
Proof.
  split.
  - apply (completion_line_iff_returned VariantB (fresh_world (block_font 6 8))).
    vm_compute. reflexivity.
  - intros H.
    apply (completion_line_iff_returned VariantB
             (filling_world (block_font 6 8))) in H.
    vm_compute in H. discriminate H.
Defined.

(** X7.  A progress line does not lie: when either script has printed the
    line that follows the write of a path ("Created ..." in variant A,
    "Saved ..." in variant B), that path is the path of a name of the list
    and, at the end of the run, returned or raised, the file holds the
    image of that name. *)
Theorem written_line_means_written (v : variant) (w : world) (p : string) :
  In (written_line v p) (printed (events (main v w))) ->
  exists name,
    In name CreateIcons.icons /\ p = path v name /\
    fs (final (main v w)) !! p =
    Some (File (Png (image v (default_font w) name))).
Proof.
  rewrite main_script. intros H.
  destruct (script_printed (body v) (image v) (path v) (started_lines v)
              (fun n => written_line v (path v n))
              (body_save v) (paths_distinct v) (body_printed v) w _ H)
    as [(Hc & _)|[(n & _ & Hn)|(n & Hin & Hn & Hfile)]].
  - destruct v; discriminate Hc.
  - destruct v; cbn in Hn; [destruct Hn|].
    destruct Hn as [Hn|[]]. discriminate Hn.
  - exists n. split; [exact Hin|].
    assert (p = path v n) as ->.
    { destruct v; cbn [written_line] in Hn;
        apply String.app_inj in Hn; exact Hn. }
    split; [reflexivity | exact Hfile].
Qed.

Lemma written_line_means_written_witness :
  exists name,
    In name CreateIcons.icons /\
    "assets/product_icons/hobo_cape_icon.png" = path VariantA name /\
    fs (final (main VariantA (filling_world (block_font 6 8))))
      !! "assets/product_icons/hobo_cape_icon.png" =
    Some (File (Png (image VariantA (block_font 6 8) name))).
Proof.
  apply (written_line_means_written VariantA (filling_world (block_font 6 8))
           "assets/product_icons/hobo_cape_icon.png").
  vm_compute. left. reflexivity.
Defined.

(** X8.  When a file sits where the output directory or its parent should
    be, either script raises in [makedirs]: that call is the only one it
    makes (nothing is drawn, written or printed) and every file of the
    tree is as it was. *)
Theorem file_in_the_way_of_the_directory (v : variant) (w : world) (c : content) :
  fs w !! "assets/product_icons" = Some (File c) \/
  (fs w !! "assets/product_icons" = None /\ fs w !! "assets" = Some (File c)) ->
  exists e,
    value (main v w) = inl e /\
    events (main v w) = [EvMakedirs "assets/product_icons" true] /\
    (forall q c', fs (final (main v w)) !! q = Some (File c') <->
                  fs w !! q = Some (File c')).
Proof.
  rewrite main_script. apply script_blocked.
Qed.

Lemma file_in_the_way_of_the_directory_witness :
  exists e,
    value (main VariantA
             (mkWorld (<["assets" := File (Raw "notes")]> ∅) []
                      (block_font 6 8))) = inl e /\
    events (main VariantA
              (mkWorld (<["assets" := File (Raw "notes")]> ∅) []
                       (block_font 6 8))) =
      [EvMakedirs "assets/product_icons" true].
Proof.
  destruct (file_in_the_way_of_the_directory VariantA
              (mkWorld (<["assets" := File (Raw "notes")]> ∅) []
                       (block_font 6 8))
              (Raw "notes")) as (e & Hv & Hev & _).
  - right. split; reflexivity.
  - exists e. split; assumption.
Defined.

(** X9.  When the environment injects no failure, a run of either script
    returns exactly when the output directory is there or can be made
    (nothing at its place and no file at the place of its parent) and none
    of the four output paths is a directory. *)
Theorem fault_free_run_returns_iff (v : variant) (w : world) :
  fault_free w ->
  (value (main v w) = inr tt <->
   (fs w !! "assets/product_icons" = Some Dir \/
    (fs w !! "assets/product_icons" = None /\
     forall c, fs w !! "assets" <> Some (File c))) /\
   (forall p, In p expected_paths -> fs w !! p <> Some Dir)).
Proof.
  intros Hf. rewrite main_script.
  rewrite (script_fault_free_iff _ _ _ (body_save v) (paths_distinct v)
             (paths_parent v) (paths_below v) w Hf).
  split; intros [Hd Hp]; (split; [exact Hd|]).
  - intros p Hin. rewrite <- (paths_expected v) in Hin.
    apply in_map_iff in Hin as (n & <- & Hn). apply Hp. exact Hn.
  - intros n Hn. apply Hp. rewrite <- (paths_expected v).
    apply in_map. exact Hn.
Qed.

Lemma fault_free_run_returns_iff_witness :
  value (main VariantA (fresh_world (block_font 6 8))) = inr tt /\
  value (main VariantB
           (mkWorld (<["assets/product_icons/extra_life_icon.png" := Dir]>
                       (<["assets/product_icons" := Dir]>
                          (<["assets" := Dir]> ∅)))
                    [] (block_font 6 8))) <> inr tt.
Proof.
  split.
  - apply (fault_free_run_returns_iff VariantA (fresh_world (block_font 6 8))).
    + constructor.
    + split.
      * right. split; [reflexivity|]. intros c. cbn. rewrite lookup_empty.
        discriminate.
      * intros p _. cbn. rewrite lookup_empty. discriminate.
  - intros H.
    apply (fault_free_run_returns_iff VariantB
             (mkWorld (<["assets/product_icons/extra_life_icon.png" := Dir]>
                         (<["assets/product_icons" := Dir]>
                            (<["assets" := Dir]> ∅)))
                      [] (block_font 6 8))) in H.
    + destruct H as [_ H].
      apply (H "assets/product_icons/extra_life_icon.png").
      * cbn. auto.
      * reflexivity.
    + constructor.
Defined.

(** X10.  A run of either script, returned or raised, hands to [save]
    only expected paths, and leaves every path other than [assets],
    [assets/product_icons] and the paths it handed to [save] exactly as it
    was: the files of icons it did not get to are untouched, and so is
    everything else in the tree. *)
Theorem run_touches_only_its_paths (v : variant) (w : world) (q : string) :
  (In q (map fst (saved (events (main v w)))) -> In q expected_paths) /\
  (q <> "assets" -> q <> "assets/product_icons" ->
   ~ In q (map fst (saved (events (main v w)))) ->
   fs (final (main v w)) !! q = fs w !! q).
Proof.
  rewrite main_script. split.
  - intros H. rewrite <- (paths_expected v).
    apply (script_saved_paths _ _ _ (body_save v) w q H).
  - apply (script_untouched _ _ _ (body_save v)).
Qed.

Lemma run_touches_only_its_paths_witness :
  fs (final (main VariantA
               (mkWorld (<["README.md" := File (Raw "readme")]> ∅)
                        [None; None; None;
                         Some (mkFault disk_full (Partial "PNG"))]
                        (block_font 6 8)))) !! "README.md" =
    Some (File (Raw "readme")) /\
  fs (final (main VariantA
               (mkWorld (<["README.md" := File (Raw "readme")]> ∅)
                        [None; None; None;
                         Some (mkFault disk_full (Partial "PNG"))]
                        (block_font 6 8))))
    !! "assets/product_icons/extra_life_icon.png" = None.
Proof.
  split.
  - rewrite (proj2 (run_touches_only_its_paths VariantA _ "README.md"));
      [reflexivity | discriminate | discriminate |].
    vm_compute. intros [H|[H|[]]]; inversion H.
  - rewrite (proj2 (run_touches_only_its_paths VariantA _
                      "assets/product_icons/extra_life_icon.png"));
      [reflexivity | discriminate | discriminate |].
    vm_compute. intros [H|[H|[]]]; inversion H.
Defined.

Lemma label_box_centred_witness :
  CreateIcons.text_x
    (CreateIcons.text_width
       (CreateIcons.display_name "quite_a_long_name_for_a_small_icon")) < 0 /\
  0 <= CreateIcons.text_x
         (CreateIcons.text_width (CreateIcons.display_name "hobo_cape_icon")).
Proof.
  split.
  - apply (label_box_centred "quite_a_long_name_for_a_small_icon").
    vm_compute. intros H. discriminate H.
  - destruct (label_box_centred "hobo_cape_icon") as (_ & _ & H).
    cbv zeta in H. apply Z.nlt_ge. intros Hlt. apply H in Hlt.
    vm_compute in Hlt. apply Hlt. reflexivity.
Defined.

(** X11.  The two scripts write to the same four paths, so the one run
    last wins: on the tree a complete run of one variant left, a run of
    the other (or the same) variant with no injected failure returns, and
    afterwards every one of the four files holds the image of the variant
    run last. *)
Theorem last_run_wins (v1 v2 : variant) (w w2 : world) :
  value (main v1 w) = inr tt ->
  fs w2 = fs (final (main v1 w)) ->
  fault_free w2 ->
  value (main v2 w2) = inr tt /\
  (forall name, In name CreateIcons.icons ->
     fs (final (main v2 w2)) !! ("assets/product_icons/" +:+ name +:+ ".png") =
     Some (File (Png (image v2 (default_font w2) name)))).
Proof.
  rewrite !main_script. intros H Hfs Hff.
  destruct (script_returned _ _ _ (body_save v1) w H) as (_ & _ & _ & Hdir & _).
  destruct (script_files _ _ _ (body_save v1) (paths_distinct v1) w H)
    as (Hin & _).
  rewrite <- Hfs in Hdir, Hin.
  assert (H2 : value (script (body v2) w2) = inr tt).
  { apply (script_fault_free_iff _ _ _ (body_save v2) (paths_distinct v2)
             (paths_parent v2) (paths_below v2) w2 Hff).
    split; [left; exact Hdir|].
    intros n Hn.
    assert (Hp : In (path v2 n) (map (path v1) CreateIcons.icons)).
    { rewrite (paths_expected v1), <- (paths_expected v2).
      apply in_map. exact Hn. }
    apply in_map_iff in Hp as (n' & Hp & Hn').
    rewrite <- Hp, (Hin n' Hn'). discriminate. }
  split; [exact H2|].
  destruct (script_files _ _ _ (body_save v2) (paths_distinct v2) w2 H2)
    as (Hin2 & _).
  intros name Hn. rewrite <- (Hin2 name Hn). f_equal.
  destruct v2; cbn in Hn;
    repeat (destruct Hn as [<-|Hn]; [reflexivity|]); destruct Hn.
Qed.

Lemma last_run_wins_witness :
  pixel_of_file
    (fs (final (main VariantB
                  (mkWorld (fs (final (main VariantA
                                         (fresh_world (block_font 6 8)))))
                           [] (block_font 6 8)))))
    "assets/product_icons/cool_shades_icon.png" (128, 128) =
  Some (PIL.Color3 70 90 150).
Proof.
  destruct (last_run_wins VariantA VariantB (fresh_world (block_font 6 8))
              (mkWorld (fs (final (main VariantA
                                     (fresh_world (block_font 6 8)))))
                       [] (block_font 6 8)))
    as (_ & Hfiles).
  - vm_compute. reflexivity.
  - reflexivity.
  - constructor.
  - unfold pixel_of_file.
    change "assets/product_icons/cool_shades_icon.png"
      with ("assets/product_icons/" +:+ "cool_shades_icon" +:+ ".png").
    rewrite (Hfiles "cool_shades_icon") by (cbn; auto).
    reflexivity.
Defined.
